(** * ExpenseFrontend: the API client, the session store and the derived
      views of the expense tracker, embedded from the TypeScript sources.

    Conventions of the embedding.
    - A JavaScript string is a [string] holding its UTF-8 bytes; the
      built-in [toLowerCase] is a parameter of the definitions that use it.
    - [localStorage] and an object literal used as a header bag are finite
      maps from strings to strings ([gmap string string]).
    - A promise that settles is an [Outcome]: [Resolved v] or [Rejected e].
    - The network is an input: the caller hands in what [fetch] settles to.
    - Amounts are rationals ([Q]) with exact addition and comparison; the
      number of seconds a token lives and [Date.now()] are integers ([Z]).
    - Values that cross the wire are taken at their declared TypeScript
      types in the modules of the client and the pages; module [Wire]
      takes a response body as the JSON value it is, whatever its shape,
      and the typed reading of [request] is its restriction to bodies of
      the declared shape.  A JSON number is a double ([float]). *)

From Stdlib Require Import ZArith QArith Lqa String Ascii List Bool Lia PrimFloat.
From stdpp Require Import gmap strings list fin_maps pretty.

Open Scope string_scope.
Open Scope Z_scope.

(* ===================================================================== *)
(** ** JavaScript values shared by the modules *)
(* ===================================================================== *)

Module Js.

(** An [Error] object.  [new Error(msg)] sets [message] only; it has no
    [status] property, so reading [error.status] yields [undefined]. *)
Record Error := mkError {
  name : string;
  message : string;
  status : option Z
}.

Definition new_Error (msg : string) : Error :=
  {| name := "Error"; message := msg; status := None |}.

Inductive Outcome (A : Type) : Type :=
| Resolved (value : A)
| Rejected (reason : Error).
Arguments Resolved {A} value.
Arguments Rejected {A} reason.

(** Truthiness of a string ([""] is falsy) and of a possibly missing one
    ([null] and [undefined] are falsy). *)
Definition truthy_string (s : string) : bool := negb (String.eqb s "").

Definition truthy (v : option string) : bool :=
  match v with
  | Some s => truthy_string s
  | None => false
  end.

(** [a || b] on possibly missing strings, and [a || "literal"]. *)
Definition or_else (a b : option string) : option string :=
  if truthy a then a else b.

Definition or_default (a : option string) (d : string) : string :=
  if truthy a then default d a else d.

(** [s.startsWith(p)] and [s.includes(p)]. *)
Fixpoint startsWith (s p : string) : bool :=
  match p, s with
  | EmptyString, _ => true
  | String c p', String d s' => Ascii.eqb c d && startsWith s' p'
  | String _ _, EmptyString => false
  end.

Fixpoint includes (s p : string) : bool :=
  startsWith s p ||
  match s with
  | EmptyString => false
  | String _ s' => includes s' p
  end.

(** Text of the Basic Latin block, and what [s.toLowerCase()] is on such
    text: the letters A-Z go to a-z and nothing else changes. *)
Definition is_ascii_char (c : ascii) : bool := Nat.ltb (nat_of_ascii c) 128.

Fixpoint is_ascii (s : string) : bool :=
  match s with
  | EmptyString => true
  | String c s' => is_ascii_char c && is_ascii s'
  end.

Definition ascii_lower_char (c : ascii) : ascii :=
  let n := nat_of_ascii c in
  if (Nat.leb 65 n && Nat.leb n 90)%bool then ascii_of_nat (n + 32) else c.

Fixpoint ascii_lower (s : string) : string :=
  match s with
  | EmptyString => EmptyString
  | String c s' => String (ascii_lower_char c) (ascii_lower s')
  end.

End Js.

Import Js.

(* ===================================================================== *)
(** ** The toast hook *)
(* ===================================================================== *)

Module Hooks.

(** The argument of [toast({ title, description, variant })]. *)
Record Toast := mkToast {
  title : string;
  description : string;
  variant : option string
}.

End Hooks.

(* ===================================================================== *)
(** ** The API client (src/lib/api.ts) *)
(* ===================================================================== *)

Module Api.

Record User := mkUser {
  id : string;
  email : string;
  user_name : string;
  role : string
}.

Record AuthResponse := mkAuthResponse {
  token : string;
  refresh_token : string;
  expires_in : Z;
  auth_user : User
}.

Record Attachment := mkAttachment { att_name : string; att_url : string }.

Record ExpenseCreate := mkExpenseCreate {
  user_id : string;
  expense_date : string;
  amount : Q;
  category : string;
  merchant : option string;
  note : option string;
  tags : option (list string);
  attachments : option (list Attachment)
}.

Record Expense := mkExpense {
  exp_id : string;
  exp_user_id : string;
  exp_date : string;
  exp_amount : Q;
  exp_category : string;
  exp_merchant : option string;
  exp_note : option string;
  exp_tags : option (list string);
  exp_attachments : option (list Attachment);
  created_at : string;
  updated_at : string
}.

(** [Partial<Profile>]: every field may be left out. *)
Record PartialProfile := mkPartialProfile {
  full_name : option string;
  avatar_url : option string
}.

Record File := mkFile { file_name : string; file_content : string }.

(** The object handed to [JSON.stringify] by each caller. *)
Inductive Payload :=
| SignupPayload (email password name : string)
| LoginPayload (email password : string)
| ProfilePayload (data : PartialProfile)
| ExpensePayload (data : ExpenseCreate).

(** The [body] of a fetch call. *)
Inductive Body :=
| NoBody
| JsonString (p : Payload)
| FormData (entries : list (string * File)).

(** [RequestInit] as the callers of [request] build it. *)
Record RequestInit := mkRequestInit {
  method : option string;
  headers : option (gmap string string);
  body : Body
}.

Definition default_init : RequestInit :=
  {| method := None; headers := None; body := NoBody |}.

(** One call of [fetch(url, init)]. *)
Record FetchCall := mkFetchCall {
  url : string;
  fetch_method : option string;
  fetch_headers : gmap string string;
  fetch_body : Body
}.

(** A parsed response body, read through the fields the client looks at:
    [detail] and [message] as the envelope types them, and the rest of
    the object at the type [T] the caller casts it to. *)
Record JsonBody (T : Type) := mkJsonBody {
  detail : option string;
  body_message : option string;
  data : T
}.
Arguments mkJsonBody {T} detail body_message data.
Arguments detail {T} _.
Arguments body_message {T} _.
Arguments data {T} _.

(** A [Response]: its status and what [response.json()] settles to
    ([Rejected] when the body is not JSON). *)
Record Response (T : Type) := mkResponse {
  resp_status : Z;
  json : Outcome (JsonBody T)
}.
Arguments mkResponse {T} resp_status json.
Arguments resp_status {T} _.
Arguments json {T} _.

(** [response.ok]: the status is in the range 200-299. *)
Definition ok {T} (r : Response T) : bool :=
  (200 <=? resp_status r) && (resp_status r <=? 299).

(** What [fetch] settles to: a response, or a rejection when no response
    arrived at all. *)
Inductive FetchResult (T : Type) :=
| Responded (r : Response T)
| Failed (e : Error).
Arguments Responded {T} r.
Arguments Failed {T} e.

(** One round trip: the call handed to [fetch] and what the promise of
    the client method settles to. *)
Record Exchange (T : Type) := mkExchange {
  issued : FetchCall;
  settled : Outcome (JsonBody T)
}.
Arguments mkExchange {T} issued settled.
Arguments issued {T} _.
Arguments settled {T} _.

Record Profile := mkProfile {
  profile_id : string;
  profile_user_id : string;
  profile_full_name : option string;
  profile_avatar_url : option string
}.

Record UploadResult := mkUploadResult {
  file_key : string;
  original_filename : string;
  size_bytes : Z;
  uploaded_at : string
}.

Record S3File := mkS3File {
  file_object_key : string;
  file_size : Z;
  last_modified : string;
  etag : string;
  s3_original_filename : string
}.

Record FileList := mkFileList { files : list S3File; total_count : Z }.

Section Client.

Variable API_BASE_URL : string.
Variable localStorage : gmap string string.

(** [getAuthHeader] *)
Definition getAuthHeader : gmap string string :=
  let token := localStorage !! "auth_token" in
  if truthy token
  then {[ "Authorization" := "Bearer " +:+ default "" token ]}
  else ∅.

(** [request] *)
Definition request {T} (endpoint : string) (options : RequestInit)
    (fetch : FetchCall -> FetchResult T) : Exchange T :=
  let call :=
    {| url := API_BASE_URL +:+ endpoint;
       fetch_method := method options;
       fetch_headers :=
         (* { "Content-Type": ..., ...getAuthHeader(), ...options.headers }:
            in a spread the later entry wins *)
         default ∅ (headers options)
           ∪ (getAuthHeader ∪ {[ "Content-Type" := "application/json" ]});
       fetch_body := body options |} in
  mkExchange call
    match fetch call with
    | Failed e => Rejected e
    | Responded response =>
        if negb (ok response) then
          let error :=
            match json response with
            | Resolved b => (detail b, body_message b)
            | Rejected _ => (None, Some "Request failed")
            end in
          Rejected (new_Error
            (or_default (or_else (fst error) (snd error)) "Request failed"))
        else json response
    end.

Definition POST (p : Payload) : RequestInit :=
  {| method := Some "POST"; headers := None; body := JsonString p |}.
Definition PUT (p : Payload) : RequestInit :=
  {| method := Some "PUT"; headers := None; body := JsonString p |}.
Definition DELETE : RequestInit :=
  {| method := Some "DELETE"; headers := None; body := NoBody |}.

(* Auth *)
Definition signup (email password name : string) :=
  request (T:=AuthResponse) "/auth/signup" (POST (SignupPayload email password name)).

Definition login (email password : string) :=
  request (T:=AuthResponse) "/auth/login" (POST (LoginPayload email password)).

Definition getMe := request (T:=User) "/auth/me" default_init.

(* Profile *)
Definition getProfile := request (T:=Profile) "/profiles/me" default_init.

Definition updateProfile (data : PartialProfile) :=
  request (T:=Profile) "/profiles/me" (PUT (ProfilePayload data)).

(* Expenses *)
Definition getExpenses (days : option Z) :=
  let params :=
    match days with
    | Some d => if d =? 0 then "" else "?days=" +:+ pretty d
    | None => ""
    end in
  request (T:=list Expense) ("/expenses" +:+ params) default_init.

Definition getExpense (id : string) :=
  request (T:=Expense) ("/expenses/" +:+ id) default_init.

Definition createExpense (data : ExpenseCreate) :=
  request (T:=Expense) "/expenses" (POST (ExpensePayload data)).

Definition updateExpense (id : string) (data : ExpenseCreate) :=
  request (T:=Expense) ("/expenses/" +:+ id) (PUT (ExpensePayload data)).

Definition deleteExpense (id : string) :=
  request (T:=unit) ("/expenses/" +:+ id) DELETE.

(* S3 File Management *)
Definition uploadFile (file : File)
    (fetch : FetchCall -> FetchResult UploadResult) : Exchange UploadResult :=
  let formData := FormData [("file", file)] in
  let token := localStorage !! "auth_token" in
  let call :=
    {| url := API_BASE_URL +:+ "/s3/upload";
       fetch_method := Some "POST";
       fetch_headers :=
         {[ "Authorization" :=
              if truthy token then "Bearer " +:+ default "" token else "" ]};
       fetch_body := formData |} in
  mkExchange call
    match fetch call with
    | Failed e => Rejected e
    | Responded response =>
        if negb (ok response) then
          let error :=
            match json response with
            | Resolved b => (detail b, body_message b)
            | Rejected _ => (None, Some "Upload failed")
            end in
          Rejected (new_Error
            (or_default (or_else (fst error) (snd error)) "Upload failed"))
        else json response
    end.

Definition listFiles := request (T:=FileList) "/s3/files" default_init.

(** The public methods of the client, with their arguments. *)
Inductive Operation :=
| Signup (email password name : string)
| Login (email password : string)
| GetMe
| GetProfile
| UpdateProfile (data : PartialProfile)
| GetExpenses (days : option Z)
| GetExpense (id : string)
| CreateExpense (data : ExpenseCreate)
| UpdateExpense (id : string) (data : ExpenseCreate)
| DeleteExpense (id : string)
| UploadFile (file : File)
| ListFiles.

Definition result_type (op : Operation) : Type :=
  match op with
  | Signup _ _ _ | Login _ _ => AuthResponse
  | GetMe => User
  | GetProfile | UpdateProfile _ => Profile
  | GetExpenses _ => list Expense
  | GetExpense _ | CreateExpense _ | UpdateExpense _ _ => Expense
  | DeleteExpense _ => unit
  | UploadFile _ => UploadResult
  | ListFiles => FileList
  end.

Definition perform (op : Operation) :
    (FetchCall -> FetchResult (result_type op)) -> Exchange (result_type op) :=
  match op with
  | Signup e p n => signup e p n
  | Login e p => login e p
  | GetMe => getMe
  | GetProfile => getProfile
  | UpdateProfile d => updateProfile d
  | GetExpenses d => getExpenses d
  | GetExpense i => getExpense i
  | CreateExpense d => createExpense d
  | UpdateExpense i d => updateExpense i d
  | DeleteExpense i => deleteExpense i
  | UploadFile f => uploadFile f
  | ListFiles => listFiles
  end.

Definition is_upload (op : Operation) : bool :=
  match op with UploadFile _ => true | _ => false end.

End Client.

(** The body each method hands to [fetch]. *)
Definition sent_body (op : Operation) : Body :=
  match op with
  | Signup email password name => JsonString (SignupPayload email password name)
  | Login email password => JsonString (LoginPayload email password)
  | UpdateProfile data => JsonString (ProfilePayload data)
  | CreateExpense data | UpdateExpense _ data => JsonString (ExpensePayload data)
  | UploadFile file => FormData [("file", file)]
  | GetMe | GetProfile | GetExpenses _ | GetExpense _ | DeleteExpense _ | ListFiles => NoBody
  end.

(** *** The error message in the words of the specification *)

(** The [detail] field if it is a non-empty string, else the [message]
    field if it is one, else the fallback; the fallback also when the body
    is not JSON. *)
Definition message_if_non_empty {T} (fallback : string) (b : Outcome (JsonBody T)) : string :=
  match b with
  | Rejected _ => fallback
  | Resolved j =>
      match detail j with
      | Some (String c d) => String c d
      | _ =>
          match body_message j with
          | Some (String c m) => String c m
          | _ => fallback
          end
      end
  end.

End Api.

(* ===================================================================== *)
(** ** [request] over untyped response bodies *)
(* ===================================================================== *)

Module Wire.

Import Api.

(** What [JSON.parse] can return.  The members of an object are in the
    order of the text; of two members with one key the later one counts. *)
#[warnings="-register-all"]
Inductive value :=
| JNull
| JBool (b : bool)
| JNumber (x : float)
| JString (s : string)
| JArray (items : list value)
| JObject (members : list (string * value)).

Definition TypeError (msg : string) : Error :=
  {| name := "TypeError"; message := msg; status := None |}.

(** What the language leaves to the engine: the decimal text of a number
    and the messages of the two [TypeError]s met here. *)
Record Engine := mkEngine {
  Number_toString : float -> string;
  null_read : string -> string;
  not_primitive : string
}.

Record Response := mkResponse {
  resp_status : Z;
  json : Outcome value
}.

Definition ok (r : Response) : bool :=
  (200 <=? resp_status r) && (resp_status r <=? 299).

Inductive FetchResult :=
| Responded (r : Response)
| Failed (e : Error).

Record Exchange := mkExchange {
  issued : FetchCall;
  settled : Outcome value
}.

(** Evaluation that may throw, in sequence. *)
#[global] Instance outcome_bind : MBind Outcome := fun A B f o =>
  match o with
  | Resolved a => f a
  | Rejected e => Rejected e
  end.

(** [ToBoolean]; [None] is [undefined]. *)
Definition ToBoolean (v : option value) : bool :=
  match v with
  | None | Some JNull => false
  | Some (JBool b) => b
  | Some (JNumber x) => negb (PrimFloat.eqb x 0 || PrimFloat.is_nan x)
  | Some (JString s) => truthy_string s
  | Some (JArray _) | Some (JObject _) => true
  end.

(** The own member of a parsed object under a key. *)
Fixpoint own (members : list (string * value)) (key : string) : option value :=
  match members with
  | [] => None
  | (k, v) :: rest =>
      match own rest key with
      | Some later => Some later
      | None => if String.eqb k key then Some v else None
      end
  end.

Section Client.

Variable engine : Engine.
Variable API_BASE_URL : string.
Variable localStorage : gmap string string.

(** [v.key] for a key that no prototype defines and that is no index, as
    [detail] and [message] are: an own member of an object, [undefined] on
    every other value but [null], where the read throws. *)
Definition Get (v : value) (key : string) : Outcome (option value) :=
  match v with
  | JNull => Rejected (TypeError (null_read engine key))
  | JObject members => Resolved (own members key)
  | JBool _ | JNumber _ | JString _ | JArray _ => Resolved None
  end.

(** [ToString]; [None] when it throws.  An array goes through [join], which
    writes [null] as the empty text; an object through
    [Object.prototype.toString], unless a member named [toString] hides it:
    that member is no function, and neither [valueOf] yields a primitive. *)
Fixpoint ToString (v : value) : option string :=
  match v with
  | JNull => Some "null"
  | JBool b => Some (if b then "true" else "false")
  | JNumber x => Some (Number_toString engine x)
  | JString s => Some s
  | JArray items =>
      (fix join (items : list value) : option string :=
         match items with
         | [] => Some ""
         | item :: rest =>
             let text := match item with JNull => Some "" | _ => ToString item end in
             match rest with
             | [] => text
             | _ :: _ =>
                 match text, join rest with
                 | Some t, Some r => Some (t +:+ "," +:+ r)
                 | _, _ => None
                 end
             end
         end) items
  | JObject members =>
      if existsb (fun m => String.eqb (fst m) "toString") members then None
      else Some "[object Object]"
  end.

(** [new Error(v)] *)
Definition new_Error_of (v : option value) : Outcome Error :=
  match v with
  | None => Resolved (new_Error "")
  | Some v =>
      match ToString v with
      | Some text => Resolved (new_Error text)
      | None => Rejected (TypeError (not_primitive engine))
      end
  end.

(** [request] *)
Definition request (endpoint : string) (options : RequestInit)
    (fetch : FetchCall -> FetchResult) : Exchange :=
  let call :=
    {| url := API_BASE_URL +:+ endpoint;
       fetch_method := method options;
       fetch_headers :=
         default ∅ (headers options)
           ∪ (getAuthHeader localStorage ∪ {[ "Content-Type" := "application/json" ]});
       fetch_body := body options |} in
  mkExchange call
    match fetch call with
    | Failed e => Rejected e
    | Responded response =>
        if negb (ok response) then
          let error :=
            match json response with
            | Resolved v => v
            | Rejected _ => JObject [("message", JString "Request failed")]
            end in
          thrown ← (detail ← Get error "detail";
                    first ← (if ToBoolean detail then Resolved detail
                             else Get error "message");
                    new_Error_of (if ToBoolean first then first
                                  else Some (JString "Request failed")));
          Rejected thrown
        else json response
    end.

End Client.

(** *** The failure in the words of the amended specification *)

(** The field that is reported: [detail] if it is there and truthy, else
    [message] if it is there and truthy. *)
Definition reported (members : list (string * value)) : option value :=
  head (List.filter (fun v => ToBoolean (Some v))
          (omap (own members) ["detail"; "message"])).

(** What [request] fails with on a status outside 200-299. *)
Definition failure (engine : Engine) (body : Outcome value) : Error :=
  match body with
  | Rejected _ => new_Error "Request failed"
  | Resolved JNull => TypeError (null_read engine "detail")
  | Resolved (JObject members) =>
      match reported members with
      | None => new_Error "Request failed"
      | Some v =>
          match ToString engine v with
          | Some text => new_Error text
          | None => TypeError (not_primitive engine)
          end
      end
  | Resolved _ => new_Error "Request failed"
  end.

(** *** The typed reading *)

(** A field as the envelope types it: absent or a string. *)
Definition as_text (v : option value) : option (option string) :=
  match v with
  | None => Some None
  | Some (JString s) => Some (Some s)
  | Some _ => None
  end.

(** A body of the declared shape, with the fields [Api.request] looks at. *)
Definition typed (v : value) : option (JsonBody value) :=
  match v with
  | JObject members =>
      d ← as_text (own members "detail");
      m ← as_text (own members "message");
      Some (mkJsonBody d m v)
  | _ => None
  end.

Definition typed_response (r : Response) : option (Api.Response value) :=
  match json r with
  | Rejected e => Some (Api.mkResponse (resp_status r) (Rejected e))
  | Resolved v => b ← typed v; Some (Api.mkResponse (resp_status r) (Resolved b))
  end.

Definition typed_result (r : FetchResult) : option (Api.FetchResult value) :=
  match r with
  | Failed e => Some (Api.Failed e)
  | Responded r => r' ← typed_response r; Some (Api.Responded r')
  end.

(** What is left of a typed result when the fields are forgotten. *)
Definition untyped (o : Outcome (JsonBody value)) : Outcome value :=
  match o with
  | Resolved b => Resolved (data b)
  | Rejected e => Rejected e
  end.

End Wire.

(* ===================================================================== *)
(** ** The session store (the [AuthProvider] context) *)
(* ===================================================================== *)

Module Session.

Import Api Hooks.

(** The provider's state together with the browser state it touches:
    [localStorage], the [user] and [loading] hooks, the targets handed to
    [navigate] and the toasts raised, both oldest first. *)
Record State := mkState {
  localStorage : gmap string string;
  user : option User;
  loading : bool;
  navigated : list string;
  toasts : list Toast
}.

Definition setItem (k v : string) (s : State) : State :=
  mkState (<[k:=v]> (localStorage s)) (user s) (loading s) (navigated s) (toasts s).
Definition removeItem (k : string) (s : State) : State :=
  mkState (delete k (localStorage s)) (user s) (loading s) (navigated s) (toasts s).
Definition setUser (u : option User) (s : State) : State :=
  mkState (localStorage s) u (loading s) (navigated s) (toasts s).
Definition setLoading (b : bool) (s : State) : State :=
  mkState (localStorage s) (user s) b (navigated s) (toasts s).
Definition navigate (path : string) (s : State) : State :=
  mkState (localStorage s) (user s) (loading s) (navigated s ++ [path]) (toasts s).
Definition toast (t : Toast) (s : State) : State :=
  mkState (localStorage s) (user s) (loading s) (navigated s) (toasts s ++ [t]).

(** The state of a freshly mounted provider over a given storage. *)
Definition mount (storage : gmap string string) : State :=
  mkState storage None true [] [].

(** The three keys the store persists. *)
Definition session_keys : list string := ["auth_token"; "tokenExpiry"; "user_data"].

Section Store.

Variable API_BASE_URL : string.
(** [JSON.stringify] at [User] and [JSON.parse] of a cached snapshot
    ([Rejected] when it throws, [Resolved None] for [null]). *)
Variable JSON_stringify : User -> string.
Variable JSON_parse : string -> Outcome (option User).

(** [error.status === 404 || error.message?.includes("404")] *)
Definition looks_like_404 (error : Error) : bool :=
  match status error with
  | Some n => n =? 404
  | None => false
  end || includes (message error) "404".

(** [checkAuth] *)
Definition checkAuth (fetch : FetchCall -> FetchResult User) (s : State) : State :=
  let token := localStorage s !! "auth_token" in
  if negb (truthy token) then setLoading false s
  else
    let attempt : State * option Error :=
      match settled (getMe API_BASE_URL (localStorage s) fetch) with
      | Resolved response =>
          let s1 := setUser (Some (data response)) s in
          (setItem "user_data" (JSON_stringify (data response)) s1, None)
      | Rejected error =>
          if looks_like_404 error then
            let cachedUser := localStorage s !! "user_data" in
            if truthy cachedUser then
              match JSON_parse (default "" cachedUser) with
              | Resolved u => (setUser u s, None)
              | Rejected e => (s, Some e)
              end
            else (s, None)
          else (s, Some error)
      end in
    let s2 :=
      match attempt with
      | (s1, None) => s1
      | (s1, Some _) =>
          removeItem "user_data" (removeItem "tokenExpiry" (removeItem "auth_token" s1))
      end in
    setLoading false s2.

(** [login]: the new state and what the returned promise settles to. *)
Definition login (email password : string) (now : Z)
    (fetch : FetchCall -> FetchResult AuthResponse) (s : State)
    : State * Outcome unit :=
  match settled (Api.login API_BASE_URL (localStorage s) email password fetch) with
  | Resolved response =>
      let s1 := setItem "auth_token" (token (data response)) s in
      let expiryTime := now + expires_in (data response) * 1000 in
      let s2 := setItem "tokenExpiry" (pretty expiryTime) s1 in
      let s3 := setItem "user_data" (JSON_stringify (auth_user (data response))) s2 in
      let s4 := setUser (Some (auth_user (data response))) s3 in
      let s5 := toast (mkToast "Welcome back!" "You've successfully logged in." None) s4 in
      (navigate "/dashboard" s5, Resolved tt)
  | Rejected error =>
      (toast (mkToast "Login failed" (message error) (Some "destructive")) s,
       Rejected error)
  end.

(** [signup] *)
Definition signup (email password name : string) (now : Z)
    (fetch : FetchCall -> FetchResult AuthResponse) (s : State)
    : State * Outcome unit :=
  match settled (Api.signup API_BASE_URL (localStorage s) email password name fetch) with
  | Resolved response =>
      let s1 := setItem "auth_token" (token (data response)) s in
      let expiryTime := now + expires_in (data response) * 1000 in
      let s2 := setItem "tokenExpiry" (pretty expiryTime) s1 in
      let s3 := setItem "user_data" (JSON_stringify (auth_user (data response))) s2 in
      let s4 := setUser (Some (auth_user (data response))) s3 in
      let s5 := toast (mkToast "Account created!" "Welcome to Finance Tracker." None) s4 in
      (navigate "/dashboard" s5, Resolved tt)
  | Rejected error =>
      (toast (mkToast "Signup failed" (message error) (Some "destructive")) s,
       Rejected error)
  end.

(** [logout] *)
Definition logout (s : State) : State :=
  let s1 := removeItem "auth_token" s in
  let s2 := removeItem "tokenExpiry" s1 in
  let s3 := removeItem "user_data" s2 in
  let s4 := setUser None s3 in
  let s5 := navigate "/login" s4 in
  toast (mkToast "Logged out" "You've been successfully logged out." None) s5.

End Store.

End Session.

(* ===================================================================== *)
(** ** The expenses page: the expense form *)
(* ===================================================================== *)

Module Expenses.

Import Api Hooks.

(** *** The part of zod the schema uses

    A schema is run field by field in the order of the object's keys; a
    field runs all of its checks in the order they were chained, and every
    failed check adds one issue. *)
Record Issue := mkIssue { path : string; issue_message : string }.

(** zod's own wording when [max] is given no message. *)
Definition default_too_big (maximum : nat) : string :=
  "String must contain at most " +:+ pretty maximum +:+ " character(s)".

(** [.min(n, msg)] and [.max(n)] / [.max(n, msg)] on strings. *)
Definition string_min (n : nat) (msg : string) (p : string) (s : string) : list Issue :=
  if Nat.ltb (String.length s) n then [mkIssue p msg] else [].

Definition string_max (n : nat) (msg : option string) (p : string) (s : string) : list Issue :=
  if Nat.ltb n (String.length s) then [mkIssue p (default (default_too_big n) msg)] else [].

(** [.positive(msg)] and [.max(n, msg)] on numbers. *)
Definition number_positive (msg : string) (p : string) (x : Q) : list Issue :=
  if Qle_bool x 0 then [mkIssue p msg] else [].

Definition number_max (n : Q) (msg : string) (p : string) (x : Q) : list Issue :=
  if negb (Qle_bool x n) then [mkIssue p msg] else [].

(** [.optional()]: an absent value passes. *)
Definition optional {A} (check : A -> list Issue) (v : option A) : list Issue :=
  match v with
  | Some x => check x
  | None => []
  end.

(** [expenseSchema] *)
Definition expenseSchema (d : ExpenseCreate) : list Issue :=
  string_min 1 "Date is required" "expense_date" (expense_date d)
  ++ (number_positive "Amount must be positive" "amount" (amount d)
      ++ number_max 999999 "Amount too large" "amount" (amount d))
  ++ (string_min 1 "Category is required" "category" (category d)
      ++ string_max 100 None "category" (category d))
  ++ optional (string_max 200 None "merchant") (merchant d)
  ++ optional (string_max 1000 None "note") (note d)
  ++ optional (fun _ : list string => []) (tags d).

Inductive SafeParse :=
| ParseSuccess
| ParseFailure (first : Issue) (rest : list Issue).

Definition safeParse (d : ExpenseCreate) : SafeParse :=
  match expenseSchema d with
  | [] => ParseSuccess
  | i :: rest => ParseFailure i rest
  end.

(** *** The submit handler *)

(** What the handler does, in order. *)
Inductive Effect :=
| PreventDefault
| ShowToast (t : Toast)
| ApiCall (op : Operation) (call : FetchCall)
| SetDialogOpen (open : bool)
| ResetForm
| LoadExpenses.

Definition non_empty {A} (l : option (list A)) : option (list A) :=
  match l with
  | Some (x :: r) => Some (x :: r)
  | _ => None
  end.

Section Handler.

Variable API_BASE_URL : string.
Variable localStorage : gmap string string.

(** [handleSubmit] *)
Definition handleSubmit (formData : ExpenseCreate) (editingExpense : option Expense)
    (fetch : FetchCall -> FetchResult Expense) : list Effect :=
  PreventDefault ::
  match safeParse formData with
  | ParseFailure issue _ =>
      [ShowToast (mkToast "Validation Error" (issue_message issue) (Some "destructive"))]
  | ParseSuccess =>
      let submitData :=
        {| user_id := user_id formData;
           expense_date := expense_date formData;
           amount := amount formData;
           category := category formData;
           merchant := merchant formData;
           note := note formData;
           tags := non_empty (tags formData);
           attachments := non_empty (attachments formData) |} in
      let '(op, exchange, done) :=
        match editingExpense with
        | Some e =>
            (UpdateExpense (exp_id e) submitData,
             updateExpense API_BASE_URL localStorage (exp_id e) submitData fetch,
             "Expense updated successfully")
        | None =>
            (CreateExpense submitData,
             createExpense API_BASE_URL localStorage submitData fetch,
             "Expense created successfully")
        end in
      ApiCall op (issued exchange) ::
      match settled exchange with
      | Resolved _ =>
          [ShowToast (mkToast "Success" done None);
           SetDialogOpen false; ResetForm; LoadExpenses]
      | Rejected error =>
          [ShowToast (mkToast "Error" (message error) (Some "destructive"))]
      end
  end.

End Handler.

(** *** The invariant of the data model, field by field *)







End Expenses.

(* ===================================================================== *)
(** ** The dashboard page: derived aggregates *)
(* ===================================================================== *)

Module Dashboard.

Import Api.

(** *** The accumulator object of [categoryTotals]

    The accumulator starts as the literal [{}], an ordinary object whose
    prototype is [Object.prototype].  Reading a key that is not an own
    property falls through to the prototype, which holds native functions
    and the [__proto__] accessor. *)

Inductive Inherited :=
| NativeFunction (property : string)
| ObjectPrototype.

(** What a cell of the accumulator can hold: a number, or the text that
    [+] builds once its left operand is not a number: the text of an
    inherited member followed by the decimal forms of the amounts
    appended so far. *)
Inductive Value :=
| Num (q : Q)
| Text (origin : Inherited) (appended : list Q).

Definition prototype_functions : list string :=
  ["constructor"; "hasOwnProperty"; "isPrototypeOf"; "propertyIsEnumerable";
   "toLocaleString"; "toString"; "valueOf";
   "__defineGetter__"; "__defineSetter__"; "__lookupGetter__"; "__lookupSetter__"].

Definition inherited (k : string) : option Inherited :=
  if String.eqb k "__proto__" then Some ObjectPrototype
  else if existsb (String.eqb k) prototype_functions then Some (NativeFunction k)
  else None.

Inductive Read :=
| Undefined
| Own (v : Value)
| Inherit (i : Inherited).

(** [acc[k]] *)
Definition read (acc : gmap string Value) (k : string) : Read :=
  match acc !! k with
  | Some v => Own v
  | None =>
      match inherited k with
      | Some i => Inherit i
      | None => Undefined
      end
  end.

(** [acc[k] = v]: an own property is created or overwritten, except under
    [__proto__], whose setter ignores a value that is not an object. *)
Definition write (acc : gmap string Value) (k : string) (v : Value) : gmap string Value :=
  if String.eqb k "__proto__" then acc else <[k:=v]> acc.

(** [(x || 0) + amount] *)
Definition or_zero_plus (x : Read) (amount : Q) : Value :=
  match x with
  | Undefined => Num (0 + amount)
  | Own (Num q) => if Qeq_bool q 0 then Num (0 + amount) else Num (q + amount)
  | Own (Text o l) => Text o (l ++ [amount])
  | Inherit i => Text i [amount]
  end.

Definition totalExpenses (expenses : list Expense) : Q :=
  fold_left (fun sum exp => (sum + exp_amount exp)%Q) expenses 0%Q.

Definition avgExpense (expenses : list Expense) : Q :=
  if Nat.ltb 0 (length expenses)
  then (totalExpenses expenses / inject_Z (Z.of_nat (length expenses)))%Q
  else 0%Q.

Definition categoryTotals (expenses : list Expense) : gmap string Value :=
  fold_left
    (fun acc exp =>
       write acc (exp_category exp)
         (or_zero_plus (read acc (exp_category exp)) (exp_amount exp)))
    expenses ∅.

(** *** The aggregates in the words of the specification *)

Fixpoint sum (l : list Q) : Q :=
  match l with
  | [] => 0%Q
  | q :: r => (q + sum r)%Q
  end.

Definition in_category (c : string) (e : Expense) : bool := String.eqb (exp_category e) c.

Definition category_sum (c : string) (expenses : list Expense) : Q :=
  sum (map exp_amount (List.filter (in_category c) expenses)).

(** An expense whose category is not the name of a member that [{}]
    inherits. *)
Definition plain (e : Expense) : Prop := inherited (exp_category e) = None.

End Dashboard.

(* ===================================================================== *)
(** ** The files page: the search filter *)
(* ===================================================================== *)

Module Files.

Import Api.

Section Filter.

(** [String.prototype.toLowerCase]. *)
Variable toLowerCase : string -> string.

(** [filteredFiles] *)
Definition filteredFiles (files : list S3File) (searchQuery : string) : list S3File :=
  List.filter
    (fun file => includes (toLowerCase (s3_original_filename file)) (toLowerCase searchQuery))
    files.

(** The lower-cased [name] has the lower-cased [query] as a substring. *)
Definition lowered_contains (name query : string) : Prop :=
  exists before after, toLowerCase name = before +:+ toLowerCase query +:+ after.

End Filter.

(** *** Containment up to case, for Basic Latin text *)

Definition is_capital (c : ascii) : Prop :=
  (65 <= nat_of_ascii c <= 90)%nat.

(** Two characters are the same letter: equal, or a capital A-Z and its
    small form (32 code points up). *)
Definition same_letter (c d : ascii) : Prop :=
  c = d
  \/ (is_capital c /\ nat_of_ascii d = (nat_of_ascii c + 32)%nat)
  \/ (is_capital d /\ nat_of_ascii c = (nat_of_ascii d + 32)%nat).

Inductive same_letters : string -> string -> Prop :=
| same_letters_nil : same_letters "" ""
| same_letters_cons c d s t :
    same_letter c d -> same_letters s t -> same_letters (String c s) (String d t).

(** [name] contains [query] as a substring up to the case of letters. *)
Definition contains_ignoring_case (name query : string) : Prop :=
  exists before stretch after,
    name = before +:+ stretch +:+ after /\ same_letters stretch query.

Definition ascii_named (file : S3File) : Prop :=
  is_ascii (s3_original_filename file) = true.

End Files.

(* ===================================================================== *)
(** ** Build-time configuration *)
(* ===================================================================== *)

Module Config.

(** [import.meta.env.VITE_API_URL || "http://127.0.0.1:8000/api"], the
    [API_BASE_URL] of the client. *)
Definition api_base_url (VITE_API_URL : option string) : string :=
  or_default VITE_API_URL "http://127.0.0.1:8000/api".

(** [import.meta.env.VITE_API_URL || "http://127.0.0.1:8000"], the origin
    the pages put in front of [/s3/files/]. *)
Definition files_origin (VITE_API_URL : option string) : string :=
  or_default VITE_API_URL "http://127.0.0.1:8000".

(** The address of a stored object as both pages build it. *)
Definition file_url (VITE_API_URL : option string) (key : string) : string :=
  files_origin VITE_API_URL +:+ "/s3/files/" +:+ key.

End Config.

(* ===================================================================== *)
(** ** The expenses page: state and the other handlers *)
(* ===================================================================== *)

Module ExpensesPage.

Import Api Hooks Expenses Config.

(** The hooks of the page and the toasts raised, oldest first. *)
Record State := mkState {
  expenses : list Expense;
  loading : bool;
  dialogOpen : bool;
  editingExpense : option Expense;
  uploadingFile : bool;
  selectedFile : option File;
  formData : ExpenseCreate;
  toasts : list Toast
}.

Definition setExpenses (v : list Expense) (s : State) : State :=
  mkState v (loading s) (dialogOpen s) (editingExpense s) (uploadingFile s)
    (selectedFile s) (formData s) (toasts s).
Definition setLoading (v : bool) (s : State) : State :=
  mkState (expenses s) v (dialogOpen s) (editingExpense s) (uploadingFile s)
    (selectedFile s) (formData s) (toasts s).
Definition setDialogOpen (v : bool) (s : State) : State :=
  mkState (expenses s) (loading s) v (editingExpense s) (uploadingFile s)
    (selectedFile s) (formData s) (toasts s).
Definition setEditingExpense (v : option Expense) (s : State) : State :=
  mkState (expenses s) (loading s) (dialogOpen s) v (uploadingFile s)
    (selectedFile s) (formData s) (toasts s).
Definition setUploadingFile (v : bool) (s : State) : State :=
  mkState (expenses s) (loading s) (dialogOpen s) (editingExpense s) v
    (selectedFile s) (formData s) (toasts s).
Definition setSelectedFile (v : option File) (s : State) : State :=
  mkState (expenses s) (loading s) (dialogOpen s) (editingExpense s) (uploadingFile s)
    v (formData s) (toasts s).
Definition setFormData (v : ExpenseCreate) (s : State) : State :=
  mkState (expenses s) (loading s) (dialogOpen s) (editingExpense s) (uploadingFile s)
    (selectedFile s) v (toasts s).
Definition toast (t : Toast) (s : State) : State :=
  mkState (expenses s) (loading s) (dialogOpen s) (editingExpense s) (uploadingFile s)
    (selectedFile s) (formData s) (toasts s ++ [t])%list.

(** [{ ...formData, attachments: v }] *)
Definition with_attachments (v : option (list Attachment)) (d : ExpenseCreate)
    : ExpenseCreate :=
  {| user_id := user_id d; expense_date := expense_date d; amount := amount d;
     category := category d; merchant := merchant d; note := note d;
     tags := tags d; attachments := v |}.

(** [array.filter((_, i) => keep(i))], counting positions from [i]. *)
Fixpoint filter_positions {A} (keep : nat -> bool) (i : nat) (l : list A) : list A :=
  match l with
  | [] => []
  | x :: r =>
      if keep i then x :: filter_positions keep (S i) r
      else filter_positions keep (S i) r
  end.

Section Page.

(** [import.meta.env], the storage, the user of the auth context and the
    text of [format(new Date(), "yyyy-MM-dd")]. *)
Variable VITE_API_URL : option string.
Variable PROD : bool.
Variable localStorage : gmap string string.
Variable user : option User.
Variable today : string.

(** The form the page starts with and resets to. *)
Definition emptyForm : ExpenseCreate :=
  {| user_id := or_default (id <$> user) "";
     expense_date := today;
     amount := 0;
     category := "";
     merchant := Some "";
     note := Some "";
     tags := Some [];
     attachments := None |}.

Definition initial : State :=
  mkState [] true false None false None emptyForm [].

(** [loadExpenses]; an array is truthy, so [response.data || []] is
    [response.data]. *)
Definition loadExpenses (fetch : FetchCall -> FetchResult (list Expense)) (s : State)
    : State :=
  let s1 :=
    match settled (getExpenses (api_base_url VITE_API_URL) localStorage None fetch) with
    | Resolved response => setExpenses (data response) s
    | Rejected _ =>
        let s' := setExpenses [] s in
        if PROD
        then toast (mkToast "Error" "Failed to load expenses" (Some "destructive")) s'
        else s'
    end in
  setLoading false s1.

(** [handleFileSelect]; [file] is [e.target.files?.[0]]. *)
Definition handleFileSelect (file : option File)
    (fetch : FetchCall -> FetchResult UploadResult) (s : State) : State :=
  match file with
  | None => s
  | Some file =>
      let s1 := setUploadingFile true (setSelectedFile (Some file) s) in
      let s2 :=
        match settled (uploadFile (api_base_url VITE_API_URL) localStorage file fetch) with
        | Resolved response =>
            let fileUrl := file_url VITE_API_URL (file_key (data response)) in
            let newAttachment :=
              {| att_name := original_filename (data response); att_url := fileUrl |} in
            let s' :=
              setFormData
                (with_attachments
                   (Some (default [] (attachments (formData s)) ++ [newAttachment])%list)
                   (formData s))
                s1 in
            toast (mkToast "File uploaded" (file_name file +:+ " uploaded successfully") None)
              s'
        | Rejected error =>
            toast (mkToast "Upload failed" (message error) (Some "destructive")) s1
        end in
      setSelectedFile None (setUploadingFile false s2)
  end.

(** [removeAttachment] *)
Definition removeAttachment (index : nat) (s : State) : State :=
  setFormData
    (with_attachments
       (filter_positions (fun i => negb (Nat.eqb i index)) 0
          <$> attachments (formData s))
       (formData s))
    s.

(** [handleDelete]; [confirmed] is the answer of [confirm(...)]. *)
Definition handleDelete (id : string) (confirmed : bool)
    (fetch : FetchCall -> FetchResult unit) : list Effect :=
  if negb confirmed then []
  else
    let exchange := deleteExpense (api_base_url VITE_API_URL) localStorage id fetch in
    ApiCall (DeleteExpense id) (issued exchange) ::
    match settled exchange with
    | Resolved _ =>
        [ShowToast (mkToast "Success" "Expense deleted successfully" None); LoadExpenses]
    | Rejected _ =>
        [ShowToast (mkToast "Error" "Failed to delete expense" (Some "destructive"))]
    end.

(** [handleEdit] *)
Definition handleEdit (expense : Expense) (s : State) : State :=
  let s1 := setEditingExpense (Some expense) s in
  let s2 :=
    setFormData
      {| user_id := or_default (id <$> user) "";
         expense_date := exp_date expense;
         amount := exp_amount expense;
         category := exp_category expense;
         merchant := Some (or_default (exp_merchant expense) "");
         note := Some (or_default (exp_note expense) "");
         tags := Some (default [] (exp_tags expense));
         attachments := Some (default [] (exp_attachments expense)) |}
      s1 in
  setDialogOpen true s2.

(** [resetForm] *)
Definition resetForm (s : State) : State :=
  setFormData emptyForm (setSelectedFile None (setEditingExpense None s)).

End Page.

(** The attachments of the form, an absent list read as empty. *)
Definition attachments_of (s : State) : list Attachment :=
  default [] (attachments (formData s)).

End ExpensesPage.

(* ===================================================================== *)
(** ** The files page: state and handlers *)
(* ===================================================================== *)

Module FilesPage.

Import Api Hooks Config Files.

(** The hooks of the page, the value of the file input and the toasts
    raised, oldest first. *)
Record State := mkState {
  files : list S3File;
  loading : bool;
  uploadingFile : bool;
  searchQuery : string;
  inputValue : string;
  toasts : list Toast
}.

Definition setFiles (v : list S3File) (s : State) : State :=
  mkState v (loading s) (uploadingFile s) (searchQuery s) (inputValue s) (toasts s).
Definition setLoading (v : bool) (s : State) : State :=
  mkState (files s) v (uploadingFile s) (searchQuery s) (inputValue s) (toasts s).
Definition setUploadingFile (v : bool) (s : State) : State :=
  mkState (files s) (loading s) v (searchQuery s) (inputValue s) (toasts s).
Definition setInputValue (v : string) (s : State) : State :=
  mkState (files s) (loading s) (uploadingFile s) (searchQuery s) v (toasts s).
Definition toast (t : Toast) (s : State) : State :=
  mkState (files s) (loading s) (uploadingFile s) (searchQuery s) (inputValue s)
    (toasts s ++ [t])%list.

Section Page.

Variable VITE_API_URL : option string.
Variable localStorage : gmap string string.
(** [String.prototype.toLowerCase]. *)
Variable toLowerCase : string -> string.

(** [loadFiles] *)
Definition loadFiles (fetch : FetchCall -> FetchResult FileList) (s : State) : State :=
  let s1 :=
    match settled (listFiles (api_base_url VITE_API_URL) localStorage fetch) with
    | Resolved response => setFiles (Api.files (data response)) s
    | Rejected _ =>
        toast (mkToast "Error" "Failed to load files" (Some "destructive")) s
    end in
  setLoading false s1.

(** [handleFileUpload]; [file] is [e.target.files?.[0]], [reload] what the
    list request started after a successful upload is answered with. *)
Definition handleFileUpload (file : option File)
    (fetch : FetchCall -> FetchResult UploadResult)
    (reload : FetchCall -> FetchResult FileList) (s : State) : State :=
  match file with
  | None => s
  | Some file =>
      let s1 := setUploadingFile true s in
      let s2 :=
        match settled (uploadFile (api_base_url VITE_API_URL) localStorage file fetch) with
        | Resolved _ =>
            let s' :=
              toast (mkToast "Success" (file_name file +:+ " uploaded successfully") None)
                s1 in
            loadFiles reload s'
        | Rejected error =>
            toast (mkToast "Upload failed" (message error) (Some "destructive")) s1
        end in
      setInputValue "" (setUploadingFile false s2)
  end.

(** What the page shows in place of the list: the heading of the empty
    state, or nothing when there are files to list. *)
Definition emptyHeading (s : State) : option string :=
  match filteredFiles toLowerCase (files s) (searchQuery s) with
  | [] =>
      Some (if truthy_string (searchQuery s) then "No files found"
            else "No files uploaded yet")
  | _ :: _ => None
  end.

(** The address the download button opens. *)
Definition downloadUrl (file : S3File) : string :=
  file_url VITE_API_URL (file_object_key file).

End Page.

End FilesPage.

(* ===================================================================== *)
(** ** The dashboard and profile pages: loading *)
(* ===================================================================== *)

Module Loaders.

Import Api Hooks Config.

Record DashboardState := mkDashboardState {
  dash_expenses : list Expense;
  dash_loading : bool;
  days : Z
}.

(** [loadExpenses] of the dashboard: a failure is swallowed. *)
Definition dashboard_loadExpenses (VITE_API_URL : option string)
    (localStorage : gmap string string)
    (fetch : FetchCall -> FetchResult (list Expense)) (s : DashboardState)
    : DashboardState :=
  let s1 :=
    match settled (getExpenses (api_base_url VITE_API_URL) localStorage
                     (Some (days s)) fetch) with
    | Resolved response => mkDashboardState (data response) (dash_loading s) (days s)
    | Rejected _ => s
    end in
  mkDashboardState (dash_expenses s1) false (days s1).

Record ProfileState := mkProfileState {
  profile : option Profile;
  profile_loading : bool;
  fullName : string;
  profile_toasts : list Toast
}.

(** [loadProfile] *)
Definition loadProfile (VITE_API_URL : option string) (localStorage : gmap string string)
    (fetch : FetchCall -> FetchResult Profile) (s : ProfileState) : ProfileState :=
  let s1 :=
    match settled (getProfile (api_base_url VITE_API_URL) localStorage fetch) with
    | Resolved response =>
        mkProfileState (Some (data response)) (profile_loading s)
          (or_default (profile_full_name (data response)) "") (profile_toasts s)
    | Rejected _ => s
    end in
  mkProfileState (profile s1) false (fullName s1) (profile_toasts s1).

(** [handleSubmit] of the profile page; [reload] answers the [loadProfile]
    started after a successful update. *)
Definition profile_handleSubmit (VITE_API_URL : option string)
    (localStorage : gmap string string)
    (fetch reload : FetchCall -> FetchResult Profile) (s : ProfileState) : ProfileState :=
  match settled (updateProfile (api_base_url VITE_API_URL) localStorage
                   {| full_name := Some (fullName s); avatar_url := None |} fetch) with
  | Resolved _ =>
      let s1 :=
        mkProfileState (profile s) (profile_loading s) (fullName s)
          (profile_toasts s ++ [mkToast "Success" "Profile updated successfully" None])%list in
      loadProfile VITE_API_URL localStorage reload s1
  | Rejected _ =>
      mkProfileState (profile s) (profile_loading s) (fullName s)
        (profile_toasts s
           ++ [mkToast "Error" "Failed to update profile" (Some "destructive")])%list
  end.

End Loaders.

(* ===================================================================== *)
(** ** Sample inputs used by the examples below *)
(* ===================================================================== *)

Module Samples.

Import Api.

Definition base : string := "http://127.0.0.1:8000/api".

Definition alice : User :=
  {| id := "u1"; email := "alice@example.com"; user_name := "Alice"; role := "user" |}.

(** A serializer and a parser for the cached snapshot, good enough for the
    examples: the four fields separated by bars. *)
Definition stringify (u : User) : string :=
  id u +:+ "|" +:+ email u +:+ "|" +:+ user_name u +:+ "|" +:+ role u.

Fixpoint split_bars (text current : string) : list string :=
  match text with
  | EmptyString => [current]
  | String c rest =>
      if Ascii.eqb c "|" then current :: split_bars rest ""
      else split_bars rest (current +:+ String c "")
  end.

Definition parse (text : string) : Outcome (option User) :=
  match split_bars text "" with
  | [i; e; n; r] => Resolved (Some (mkUser i e n r))
  | _ => Rejected {| name := "SyntaxError"; message := "Unexpected token"; status := None |}
  end.

Definition signed_in : gmap string string :=
  {[ "auth_token" := "tok-1"; "tokenExpiry" := "1700003600000";
     "user_data" := stringify alice; "theme" := "dark" ]}.

Definition empty_token : gmap string string := {[ "auth_token" := "" ]}.

(** The answer of a backend that does not know the route: HTTP 404 with the
    body [{"detail":"Not Found"}]. *)
Definition not_found : Response User :=
  {| resp_status := 404;
     json := Resolved {| detail := Some "Not Found"; body_message := None; data := alice |} |}.

(** HTTP 500 whose text happens to mention the digits 404. *)
Definition server_error : Response User :=
  {| resp_status := 500;
     json := Resolved {| detail := Some "upstream answered 404";
                         body_message := None; data := alice |} |}.

Definition login_ok : Response AuthResponse :=
  {| resp_status := 200;
     json := Resolved {| detail := None; body_message := Some "Login successful";
                         data := {| token := "tok-2"; refresh_token := "ref-2";
                                    expires_in := 3600; auth_user := alice |} |} |}.

(** The form as it is when the dialog opens: no amount, no category. *)
Definition blank_form : ExpenseCreate :=
  {| user_id := "u1"; expense_date := "2024-05-01"; amount := 0; category := "";
     merchant := Some ""; note := Some ""; tags := Some []; attachments := None |}.

Definition lunch : ExpenseCreate :=
  {| user_id := "u1"; expense_date := "2024-05-01"; amount := 12.5; category := "Food";
     merchant := Some "Cafe"; note := Some ""; tags := Some []; attachments := None |}.

Definition spent (category : string) (amount : Q) : Expense :=
  {| exp_id := "e1"; exp_user_id := "u1"; exp_date := "2024-05-01";
     exp_amount := amount; exp_category := category;
     exp_merchant := None; exp_note := None; exp_tags := None; exp_attachments := None;
     created_at := "2024-05-01T10:00:00Z"; updated_at := "2024-05-01T10:00:00Z" |}.

Definition stored (name : string) : S3File :=
  {| file_object_key := "uploads/" +:+ name; file_size := 1024;
     last_modified := "2024-05-01T10:00:00Z"; etag := "abc";
     s3_original_filename := name |}.

Definition receipt : File := {| file_name := "receipt.pdf"; file_content := "%PDF" |}.

(** An engine for the examples, with the messages of V8.  Its number text
    is the decimal text of the whole numbers of magnitude below 2^53; the
    examples use no others. *)
Definition floor (x : float) : float :=
  let r := PrimFloat.sub (PrimFloat.add x 4503599627370496%float)
             4503599627370496%float in
  if PrimFloat.leb r x then r else PrimFloat.sub r 1%float.

Definition digit (d : float) : string :=
  if PrimFloat.eqb d 0 then "0" else if PrimFloat.eqb d 1 then "1"
  else if PrimFloat.eqb d 2 then "2" else if PrimFloat.eqb d 3 then "3"
  else if PrimFloat.eqb d 4 then "4" else if PrimFloat.eqb d 5 then "5"
  else if PrimFloat.eqb d 6 then "6" else if PrimFloat.eqb d 7 then "7"
  else if PrimFloat.eqb d 8 then "8" else "9".

Fixpoint digits (fuel : nat) (x : float) (acc : string) : string :=
  match fuel with
  | O => acc
  | S fuel' =>
      let q := floor (PrimFloat.div x 10) in
      let acc' := digit (PrimFloat.sub x (PrimFloat.mul 10 q)) +:+ acc in
      if PrimFloat.eqb q 0 then acc' else digits fuel' q acc'
  end.

Definition whole_number_text (x : float) : string :=
  if PrimFloat.ltb x 0 then "-" +:+ digits 17 (PrimFloat.opp x) ""
  else digits 17 x "".

Definition v8 : Wire.Engine :=
  {| Wire.Number_toString := whole_number_text;
     Wire.null_read key := "Cannot read properties of null (reading '" +:+ key +:+ "')";
     Wire.not_primitive := "Cannot convert object to primitive value" |}.




(** A lower-casing for the examples that goes beyond Basic Latin: it also
    maps the Greek capitals (U+0391..U+03A9, in UTF-8 the bytes CE 91 ..
    CE A9) to their small letters, and capital sigma to the final form
    U+03C2 when it follows a cased letter and no cased letter follows it,
    which is Unicode's Final_Sigma rule that [toLowerCase] obeys. *)
Definition is_latin_letter (c : ascii) : bool :=
  let n := nat_of_ascii c in
  ((Nat.leb 65 n && Nat.leb n 90) || (Nat.leb 97 n && Nat.leb n 122))%bool.

Definition greek_letter (c d : ascii) : bool :=
  let m := nat_of_ascii c in
  let n := nat_of_ascii d in
  ((Nat.eqb m 206 && Nat.leb 145 n && Nat.leb n 191 && negb (Nat.eqb n 162))
   || (Nat.eqb m 207 && Nat.leb 128 n && Nat.leb n 142))%bool.

Definition greek_capital (c d : ascii) : bool :=
  let n := nat_of_ascii d in
  (Nat.eqb (nat_of_ascii c) 206 && Nat.leb 145 n && Nat.leb n 169
   && negb (Nat.eqb n 162))%bool.

Definition is_sigma (c d : ascii) : bool :=
  (Nat.eqb (nat_of_ascii c) 206 && Nat.eqb (nat_of_ascii d) 163)%bool.

Definition greek_small (c d : ascii) : string :=
  let n := nat_of_ascii d in
  if negb (greek_capital c d) then String c (String d "")
  else if Nat.leb n 159 then String c (String (ascii_of_nat (n + 32)) "")
  else String (ascii_of_nat 207) (String (ascii_of_nat (n - 32)) "").

Definition starts_cased (s : string) : bool :=
  match s with
  | String c rest =>
      (is_latin_letter c
       || match rest with String d _ => greek_letter c d | EmptyString => false end)%bool
  | EmptyString => false
  end.

Fixpoint unicode_lower_from (after_cased : bool) (s : string) : string :=
  match s with
  | EmptyString => ""
  | String c rest =>
      if Js.is_ascii_char c then
        String (Js.ascii_lower_char c) (unicode_lower_from (is_latin_letter c) rest)
      else
        match rest with
        | String d rest' =>
            if is_sigma c d then
              (if (after_cased && negb (starts_cased rest'))%bool then "ς" else "σ")
              +:+ unicode_lower_from true rest'
            else if greek_letter c d then
              greek_small c d +:+ unicode_lower_from true rest'
            else String c (unicode_lower_from false rest)
        | EmptyString => String c ""
        end
  end.

Definition unicode_lower (s : string) : string := unicode_lower_from false s.

End Samples.

(* ===================================================================== *)
(** ** The amounts behind a slice of the category chart *)
(* ===================================================================== *)

Module Charts.

Import Dashboard.

(** The amounts filed under a category, in the order of the list. *)
Definition category_amounts (c : string) (expenses : list Api.Expense) : list Q :=
  map Api.exp_amount (List.filter (in_category c) expenses).

End Charts.

(* ===================================================================== *)
(** ** Further sample inputs *)
(* ===================================================================== *)

Module MoreSamples.

Import Api.

Definition offline {T} : FetchCall -> FetchResult T :=
  fun _ => Failed {| name := "TypeError"; message := "Failed to fetch"; status := None |}.

(** Options whose own headers replace the token. *)
Definition impersonating : RequestInit :=
  {| method := None;
     headers := Some {[ "Authorization" := "Bearer other" ]};
     body := NoBody |}.

(** HTTP 413 from a proxy: the body is an HTML page, not JSON. *)
Definition too_large : Response UploadResult :=
  {| resp_status := 413;
     json := Rejected {| name := "SyntaxError"; message := "Unexpected token <";
                         status := None |} |}.

Definition uploaded : Response UploadResult :=
  {| resp_status := 200;
     json := Resolved {| detail := None; body_message := Some "Uploaded";
                         data := {| file_key := "uploads/42-receipt.pdf";
                                    original_filename := "receipt.pdf";
                                    size_bytes := 4; uploaded_at := "2024-05-01T10:00:00Z" |} |} |}.

Definition me_ok : Response User :=
  {| resp_status := 200;
     json := Resolved {| detail := None; body_message := Some "OK";
                         data := {| id := "u1"; email := "alice@example.com";
                                    user_name := "Alice B."; role := "admin" |} |} |}.

(** HTTP 404 whose text carries the status, as a proxy would word it. *)
Definition not_found_404 : Response User :=
  {| resp_status := 404;
     json := Resolved {| detail := Some "404 Not Found"; body_message := None;
                         data := Samples.alice |} |}.

Definition corrupt_cache : gmap string string :=
  {[ "auth_token" := "tok-1"; "tokenExpiry" := "1700003600000"; "user_data" := "{oops" ]}.

Definition unauthorized : Response User :=
  {| resp_status := 401;
     json := Resolved {| detail := Some "Token expired"; body_message := None;
                         data := Samples.alice |} |}.

Definition paperclip : Attachment :=
  {| att_name := "old.pdf"; att_url := "http://127.0.0.1:8000/s3/files/uploads/1-old.pdf" |}.

Definition with_one_attachment : ExpenseCreate :=
  {| user_id := "u1"; expense_date := "2024-05-01"; amount := 12.5; category := "Food";
     merchant := Some "Cafe"; note := Some ""; tags := Some [];
     attachments := Some [paperclip] |}.

Definition groceries : Expense :=
  {| exp_id := "e7"; exp_user_id := "u1"; exp_date := "2024-05-02";
     exp_amount := 40; exp_category := "Food";
     exp_merchant := None; exp_note := None; exp_tags := None; exp_attachments := None;
     created_at := "2024-05-02T10:00:00Z"; updated_at := "2024-05-02T10:00:00Z" |}.

End MoreSamples.

(* ********************************************************************* *)
(** * Properties *)
(* ********************************************************************* *)

(* ===================================================================== *)
(** ** The API client *)
(* ===================================================================== *)

Module ApiFacts.

Import Api.

Lemma or_default_spec (a b : option string) (d : string) :
  or_default (or_else a b) d =
  match a with
  | Some (String c s) => String c s
  | _ => match b with Some (String c s) => String c s | _ => d end
  end.
Proof. destruct a as [[|c s]|]; destruct b as [[|c' s']|]; reflexivity. Qed.

(** The header bag of [getAuthHeader], key by key. *)
Lemma auth_header_lookup (storage : gmap string string) k :
  getAuthHeader storage !! k =
  match storage !! "auth_token" with
  | Some (String c t) =>
      if decide (k = "Authorization") then Some ("Bearer " +:+ String c t) else None
  | _ => None
  end.
Proof.
  unfold getAuthHeader.
  destruct (storage !! "auth_token") as [[|c t]|]; simpl; try apply lookup_empty.
  case_decide; subst.
  - apply lookup_singleton_eq.
  - apply lookup_singleton_ne. congruence.
Qed.

(** The headers [request] sends when the caller passes none of its own. *)
Lemma request_headers_lookup {T} base (storage : gmap string string) endpoint options
    (fetch : FetchCall -> FetchResult T) k :
  headers options = None ->
  fetch_headers (issued (request base storage endpoint options fetch)) !! k =
    match getAuthHeader storage !! k with
    | Some v => Some v
    | None => if decide (k = "Content-Type") then Some "application/json" else None
    end.
Proof.
  intros Hh. simpl. rewrite Hh. simpl.
  rewrite (left_id_L ∅ (∪)).
  rewrite lookup_union.
  case_decide; subst.
  - rewrite lookup_singleton_eq.
    destruct (getAuthHeader storage !! "Content-Type"); reflexivity.
  - rewrite lookup_singleton_ne by congruence.
    destruct (getAuthHeader storage !! k); reflexivity.
Qed.

(** Whatever the caller's own headers, [request] sends a [Content-Type]. *)
Lemma request_sends_content_type {T} base (storage : gmap string string) endpoint options
    (fetch : FetchCall -> FetchResult T) :
  is_Some (fetch_headers (issued (request base storage endpoint options fetch))
             !! "Content-Type").
Proof.
  simpl. rewrite lookup_union.
  destruct (default ∅ (headers options) !! "Content-Type") as [v|] eqn:E.
  - rewrite lookup_union, lookup_singleton_eq.
    destruct (getAuthHeader storage !! "Content-Type"); simpl; eauto.
  - rewrite lookup_union, lookup_singleton_eq.
    destruct (getAuthHeader storage !! "Content-Type"); simpl; eauto.
Qed.

(** Every method but [uploadFile] is one application of [request] to an
    endpoint and to options without headers of their own. *)
Lemma perform_via_request base (storage : gmap string string) op fetch :
  is_upload op = false ->
  exists endpoint options,
    headers options = None
    /\ (body options = NoBody \/ exists p, body options = JsonString p)
    /\ perform base storage op fetch
       = request (T:=result_type op) base storage endpoint options fetch.
Proof.
  destruct op; simpl; intros Hup; try discriminate;
    eexists _, _; (split; [|split; [|reflexivity]]); simpl; eauto.
Qed.

(** The ways out of [request]: a response inside 200-299, a response
    outside it, no response at all. *)
Lemma request_resolves {T} base (storage : gmap string string) endpoint options
    (fetch : FetchCall -> FetchResult T) response :
  fetch (issued (request base storage endpoint options fetch)) = Responded response ->
  ok response = true ->
  settled (request base storage endpoint options fetch) = json response.
Proof. intros Hfetch Hok. simpl in Hfetch |- *. rewrite Hfetch, Hok. reflexivity. Qed.

Lemma request_rejects {T} base (storage : gmap string string) endpoint options
    (fetch : FetchCall -> FetchResult T) response :
  fetch (issued (request base storage endpoint options fetch)) = Responded response ->
  ok response = false ->
  settled (request base storage endpoint options fetch)
  = Rejected (new_Error (message_if_non_empty "Request failed" (json response))).
Proof.
  intros Hfetch Hok. simpl in Hfetch |- *. rewrite Hfetch, Hok. simpl.
  f_equal. f_equal.
  destruct (json response) as [j|e]; simpl; [apply or_default_spec | reflexivity].
Qed.

Lemma request_network_failure {T} base (storage : gmap string string) endpoint options
    (fetch : FetchCall -> FetchResult T) e :
  fetch (issued (request base storage endpoint options fetch)) = Failed e ->
  settled (request base storage endpoint options fetch) = Rejected e.
Proof. intros Hfetch. simpl in Hfetch |- *. rewrite Hfetch. reflexivity. Qed.

(** C7.  Every method of the client, [uploadFile] included, takes the token
    from the storage it is called on: the call it issues depends on the
    storage through [auth_token] only; a stored non-empty token [t] is sent
    as [Authorization: Bearer t]; without a stored token (or with an empty
    one) the methods built on [request] send no [Authorization] header. *)
Theorem bearer_token_attached base (storage : gmap string string) op fetch :
  (forall t, storage !! "auth_token" = Some t -> t <> "" ->
     fetch_headers (issued (perform base storage op fetch)) !! "Authorization"
     = Some ("Bearer " +:+ t))
  /\ (storage !! "auth_token" = None \/ storage !! "auth_token" = Some "" ->
      is_upload op = false ->
      fetch_headers (issued (perform base storage op fetch)) !! "Authorization" = None)
  /\ (forall storage' : gmap string string,
      storage' !! "auth_token" = storage !! "auth_token" ->
      issued (perform base storage' op fetch) = issued (perform base storage op fetch)).
Proof.
  split; [|split].
  - intros t Ht Hne. destruct t as [|c t]; [congruence|].
    destruct (is_upload op) eqn:Hup.
    + destruct op; try discriminate. simpl. rewrite Ht. simpl.
      apply lookup_singleton_eq.
    + destruct (perform_via_request base storage op fetch Hup)
        as (endpoint & options & Hh & _ & ->).
      rewrite request_headers_lookup by exact Hh.
      rewrite auth_header_lookup, Ht. reflexivity.
  - intros Hnone Hup.
    destruct (perform_via_request base storage op fetch Hup)
      as (endpoint & options & Hh & _ & ->).
    rewrite request_headers_lookup by exact Hh.
    rewrite auth_header_lookup.
    destruct Hnone as [-> | ->]; reflexivity.
  - intros storage' Heq.
    destruct op; simpl; unfold getAuthHeader; rewrite Heq; reflexivity.
Qed.

Lemma bearer_token_attached_witness :
  fetch_headers (issued (perform Samples.base Samples.signed_in (UploadFile Samples.receipt)
                           (fun _ => Failed (new_Error "offline"))))
    !! "Authorization" = Some "Bearer tok-1"
  /\ fetch_headers (issued (perform Samples.base ∅ GetMe
                              (fun _ => Failed (new_Error "offline"))))
       !! "Authorization" = None.
Proof.
  split.
  - apply (bearer_token_attached Samples.base Samples.signed_in
             (UploadFile Samples.receipt) (fun _ => Failed (new_Error "offline"))).
    + reflexivity.
    + discriminate.
  - apply (bearer_token_attached Samples.base ∅ GetMe
             (fun _ => Failed (new_Error "offline"))).
    + left. reflexivity.
    + reflexivity.
Defined.

(** Without a token [uploadFile] still sends the header, with an empty
    value. *)
Lemma upload_without_token base (storage : gmap string string) file fetch :
  truthy (storage !! "auth_token") = false ->
  fetch_headers (issued (uploadFile base storage file fetch)) !! "Authorization" = Some "".
Proof. intros H. simpl. rewrite H. apply lookup_singleton_eq. Qed.

Example empty_token_headers :
  fetch_headers (issued (getMe Samples.base Samples.empty_token
                           (fun _ => Failed (new_Error "offline"))))
    !! "Authorization" = None
  /\ fetch_headers (issued (uploadFile Samples.base Samples.empty_token Samples.receipt
                              (fun _ => Failed (new_Error "offline"))))
       !! "Authorization" = Some "".
Proof. split; vm_compute; reflexivity. Qed.

(** The body of the call is the one the method was given to send. *)
Lemma perform_body base (storage : gmap string string) op fetch :
  fetch_body (issued (perform base storage op fetch)) = sent_body op.
Proof. destruct op; reflexivity. Qed.

(** C8.  Every method other than [uploadFile] is an application of
    [request]: it sends [Content-Type: application/json] and its body, when
    it has one, is a [JSON.stringify] text.  [uploadFile] sends no
    [Content-Type] of its own and a form-data body holding the file, and no
    application of [request] issues its call.  Method by method the body is
    the one of the table [sent_body]: the [JSON.stringify] text of the
    arguments for [signup], [login], [updateProfile], [createExpense] and
    [updateExpense], the form data for [uploadFile], none for the others. *)
Theorem only_upload_bypasses_json base (storage : gmap string string) op fetch :
  (is_upload op = false ->
     (exists endpoint options,
        perform base storage op fetch
        = request (T:=result_type op) base storage endpoint options fetch)
     /\ fetch_headers (issued (perform base storage op fetch)) !! "Content-Type"
        = Some "application/json"
     /\ (fetch_body (issued (perform base storage op fetch)) = NoBody
         \/ exists p, fetch_body (issued (perform base storage op fetch)) = JsonString p))
  /\ (forall file, op = UploadFile file ->
     fetch_headers (issued (perform base storage op fetch)) !! "Content-Type" = None
     /\ fetch_body (issued (perform base storage op fetch)) = FormData [("file", file)]
     /\ forall T endpoint options (fetch' : FetchCall -> FetchResult T),
          issued (request base storage endpoint options fetch')
          <> issued (perform base storage op fetch))
  /\ fetch_body (issued (perform base storage op fetch)) = sent_body op.
Proof.
  split; [|split].
  - intros Hup.
    destruct (perform_via_request base storage op fetch Hup)
      as (endpoint & options & Hh & Hbody & Heq).
    split; [eauto|]. rewrite Heq. split.
    + rewrite request_headers_lookup by exact Hh.
      rewrite auth_header_lookup.
      destruct (storage !! "auth_token") as [[|c t]|]; reflexivity.
    + exact Hbody.
  - intros file ->. split; [|split].
    + simpl. apply lookup_singleton_ne. discriminate.
    + reflexivity.
    + intros T endpoint options fetch' Heq.
      pose proof (request_sends_content_type base storage endpoint options fetch') as [v Hv].
      rewrite Heq in Hv. simpl in Hv.
      rewrite lookup_singleton_ne in Hv by discriminate. discriminate.
  - apply perform_body.
Qed.

Lemma only_upload_bypasses_json_witness :
  (fetch_headers (issued (perform Samples.base Samples.signed_in
                            (Login "alice@example.com" "secret")
                            (fun _ => Failed (new_Error "offline"))))
     !! "Content-Type" = Some "application/json"
   /\ fetch_body (issued (perform Samples.base Samples.signed_in
                            (Login "alice@example.com" "secret")
                            (fun _ => Failed (new_Error "offline"))))
      = JsonString (LoginPayload "alice@example.com" "secret"))
  /\ fetch_body (issued (perform Samples.base Samples.signed_in (UploadFile Samples.receipt)
                           (fun _ => Failed (new_Error "offline"))))
     = FormData [("file", Samples.receipt)].
Proof.
  split.
  - destruct (only_upload_bypasses_json Samples.base Samples.signed_in
                (Login "alice@example.com" "secret")
                (fun _ => Failed (new_Error "offline")))
      as (Hrequest & _ & Hbody).
    split; [|exact Hbody].
    apply Hrequest. reflexivity.
  - destruct (only_upload_bypasses_json Samples.base Samples.signed_in
                (UploadFile Samples.receipt) (fun _ => Failed (new_Error "offline")))
      as (_ & Hupload & _).
    apply (Hupload Samples.receipt). reflexivity.
Defined.

End ApiFacts.

(* ===================================================================== *)
(** ** [request] over untyped response bodies *)
(* ===================================================================== *)

Module WireFacts.

Import Api Wire.

Lemma reported_first members v :
  own members "detail" = Some v -> ToBoolean (Some v) = true ->
  reported members = Some v.
Proof.
  intros Hd Ht. unfold reported. cbn -[ToBoolean]. rewrite Hd.
  cbn -[ToBoolean]. rewrite Ht. reflexivity.
Qed.

Lemma reported_second members :
  ToBoolean (own members "detail") = false ->
  reported members
  = if ToBoolean (own members "message") then own members "message" else None.
Proof.
  intros Hd. unfold reported. cbn -[ToBoolean].
  destruct (own members "detail") as [d|]; cbn -[ToBoolean]; [rewrite Hd|];
    (destruct (own members "message") as [m|]; cbn -[ToBoolean]; [|reflexivity]);
    destruct (ToBoolean (Some m)); reflexivity.
Qed.

(** What [request] throws for a parsed body that is an object. *)
Lemma thrown_for_object engine members :
  (detail ← Get engine (JObject members) "detail";
   first ← (if ToBoolean detail then Resolved detail
            else Get engine (JObject members) "message");
   new_Error_of engine (if ToBoolean first then first
                        else Some (JString "Request failed")))
  ≫= (fun thrown => Rejected thrown)
  = (Rejected (failure engine (Resolved (JObject members))) : Outcome value).
Proof.
  unfold failure. cbn [Get mbind outcome_bind].
  destruct (ToBoolean (own members "detail")) eqn:Hd.
  - destruct (own members "detail") as [d|] eqn:Ed; [|discriminate].
    rewrite (reported_first members d Ed Hd).
    cbn [mbind outcome_bind]. rewrite Hd. unfold new_Error_of.
    destruct (ToString engine d); reflexivity.
  - rewrite (reported_second members Hd).
    cbn [mbind outcome_bind].
    destruct (ToBoolean (own members "message")) eqn:Hm.
    + destruct (own members "message") as [m|]; [|discriminate].
      unfold new_Error_of. destruct (ToString engine m); reflexivity.
    + reflexivity.
Qed.

(** The two ways out of [request] once a response is there. *)
Lemma wire_resolves engine base (storage : gmap string string) endpoint options
    (fetch : FetchCall -> FetchResult) response :
  fetch (issued (request engine base storage endpoint options fetch)) = Responded response ->
  ok response = true ->
  settled (request engine base storage endpoint options fetch) = json response.
Proof. intros Hfetch Hok. simpl in Hfetch |- *. rewrite Hfetch, Hok. reflexivity. Qed.

Lemma wire_rejects engine base (storage : gmap string string) endpoint options
    (fetch : FetchCall -> FetchResult) response :
  fetch (issued (request engine base storage endpoint options fetch)) = Responded response ->
  ok response = false ->
  settled (request engine base storage endpoint options fetch)
  = Rejected (failure engine (json response)).
Proof.
  intros Hfetch Hok. simpl in Hfetch |- *. rewrite Hfetch, Hok. cbn [negb].
  destruct (json response) as [v|e]; [|reflexivity].
  destruct v; try reflexivity. apply thrown_for_object.
Qed.




Example numeric_detail :
  settled (request Samples.v8 Samples.base ∅ "/expenses" default_init
             (fun _ => Responded
                         (mkResponse 404 (Resolved (JObject [("detail", JNumber 404)])))))
  = Rejected (new_Error "404")
  /\ settled (request Samples.v8 Samples.base ∅ "/expenses" default_init
                (fun _ => Responded
                            (mkResponse 400
                               (Resolved (JObject [("detail", JNumber 0);
                                                   ("message", JBool true)])))))
     = Rejected (new_Error "true").
Proof. split; vm_compute; reflexivity. Qed.

(** The call does not depend on how the answer is read. *)
Lemma request_issued {T} engine base (storage : gmap string string) endpoint options
    fetch (fetch' : FetchCall -> Api.FetchResult T) :
  issued (request engine base storage endpoint options fetch)
  = Api.issued (Api.request base storage endpoint options fetch').
Proof. reflexivity. Qed.

Lemma typed_failure engine v b :
  typed v = Some b ->
  failure engine (Resolved v)
  = new_Error (message_if_non_empty "Request failed" (Resolved b)).
Proof.
  destruct v as [| | | | |members]; try discriminate. simpl.
  destruct (own members "detail") as [d|] eqn:Ed;
    [destruct d as [| | |d| |]; try discriminate|];
    (destruct (own members "message") as [m|] eqn:Em;
     [destruct m as [| | |m| |]; try discriminate|]);
    simpl; intros [= <-]; simpl.
  - destruct d as [|c d].
    + rewrite reported_second by (rewrite Ed; reflexivity). rewrite Em.
      destruct m; reflexivity.
    + rewrite (reported_first members _ Ed eq_refl). reflexivity.
  - destruct d as [|c d].
    + rewrite reported_second by (rewrite Ed; reflexivity). rewrite Em. reflexivity.
    + rewrite (reported_first members _ Ed eq_refl). reflexivity.
  - rewrite reported_second by (rewrite Ed; reflexivity). rewrite Em.
    destruct m; reflexivity.
  - rewrite reported_second by (rewrite Ed; reflexivity). rewrite Em. reflexivity.
Qed.

(** On answers of the declared shape the typed [request] of the client is
    this one: the same call, and the same outcome once the typed fields are
    forgotten. *)
Lemma request_typed engine base (storage : gmap string string) endpoint options
    fetch (fetch' : FetchCall -> Api.FetchResult value) :
  (forall call, typed_result (fetch call) = Some (fetch' call)) ->
  settled (request engine base storage endpoint options fetch)
  = untyped (Api.settled (Api.request base storage endpoint options fetch')).
Proof.
  intros Htyped.
  pose proof (Htyped (issued (request engine base storage endpoint options fetch))) as H.
  destruct (fetch (issued (request engine base storage endpoint options fetch)))
    as [response|e] eqn:Hfetch.
  - simpl in H. unfold typed_response in H.
    destruct (json response) as [v|err] eqn:Hjson; simpl in H.
    + destruct (typed v) as [b|] eqn:Hb; [|discriminate]. injection H as H.
      symmetry in H.
      destruct (ok response) eqn:Hok.
      * rewrite (wire_resolves _ _ _ _ _ _ _ Hfetch Hok), Hjson.
        rewrite (ApiFacts.request_resolves base storage endpoint options fetch' _ H Hok).
        simpl. destruct v; try discriminate. simpl in Hb.
        destruct (as_text (own members "detail")); [|discriminate].
        destruct (as_text (own members "message")); [|discriminate].
        injection Hb as <-. reflexivity.
      * rewrite (wire_rejects _ _ _ _ _ _ _ Hfetch Hok), Hjson.
        rewrite (ApiFacts.request_rejects base storage endpoint options fetch' _ H Hok).
        simpl. f_equal. by apply typed_failure.
    + injection H as H. symmetry in H.
      destruct (ok response) eqn:Hok.
      * rewrite (wire_resolves _ _ _ _ _ _ _ Hfetch Hok), Hjson.
        rewrite (ApiFacts.request_resolves base storage endpoint options fetch' _ H Hok).
        reflexivity.
      * rewrite (wire_rejects _ _ _ _ _ _ _ Hfetch Hok), Hjson.
        rewrite (ApiFacts.request_rejects base storage endpoint options fetch' _ H Hok).
        reflexivity.
  - simpl in H. injection H as H.
    simpl in Hfetch |- *. rewrite Hfetch, <- H. reflexivity.
Qed.

End WireFacts.

(* ===================================================================== *)
(** ** The session store *)
(* ===================================================================== *)

Module SessionFacts.

Import Api Hooks Session.

Lemma not_session_key k :
  k ∉ session_keys -> k <> "auth_token" /\ k <> "tokenExpiry" /\ k <> "user_data".
Proof.
  unfold session_keys. intros H.
  repeat split; intros ->; apply H; repeat constructor.
Qed.

(** What [getMe] settles to decides [checkAuth]; these are its three ways
    out once a token is stored. *)
Lemma checkAuth_resolved base stringify parse fetch s response :
  truthy (localStorage s !! "auth_token") = true ->
  settled (getMe base (localStorage s) fetch) = Resolved response ->
  checkAuth base stringify parse fetch s
  = setLoading false
      (setItem "user_data" (stringify (data response)) (setUser (Some (data response)) s)).
Proof. intros Ht Hs. unfold checkAuth. rewrite Ht, Hs. reflexivity. Qed.

Lemma checkAuth_rejected_other base stringify parse fetch s error :
  truthy (localStorage s !! "auth_token") = true ->
  settled (getMe base (localStorage s) fetch) = Rejected error ->
  looks_like_404 error = false ->
  checkAuth base stringify parse fetch s
  = setLoading false
      (removeItem "user_data" (removeItem "tokenExpiry" (removeItem "auth_token" s))).
Proof. intros Ht Hs Hl. unfold checkAuth. rewrite Ht, Hs, Hl. reflexivity. Qed.

Lemma checkAuth_rejected_404 base stringify parse fetch s error cached u :
  truthy (localStorage s !! "auth_token") = true ->
  settled (getMe base (localStorage s) fetch) = Rejected error ->
  looks_like_404 error = true ->
  localStorage s !! "user_data" = Some cached -> cached <> "" ->
  parse cached = Resolved u ->
  checkAuth base stringify parse fetch s = setLoading false (setUser u s).
Proof.
  intros Ht Hs Hl Hc Hne Hp. unfold checkAuth. rewrite Ht, Hs, Hl, Hc.
  destruct cached as [|c cached]; [congruence|]. simpl. simpl in Hp. rewrite Hp.
  reflexivity.
Qed.

(** The error [getMe] rejects with on a response outside 200-299 carries
    the text of the body and no status. *)
Lemma getMe_rejects_without_status base (storage : gmap string string) fetch response :
  fetch (issued (getMe base storage fetch)) = Responded response ->
  ok response = false ->
  exists msg, settled (getMe base storage fetch) = Rejected (new_Error msg)
              /\ msg = message_if_non_empty "Request failed" (json response)
              /\ status (new_Error msg) = None.
Proof.
  intros Hf Hok. eexists. split; [|split; reflexivity].
  exact (ApiFacts.request_rejects base storage "/auth/me" default_init fetch response
           Hf Hok).
Qed.

(** Removing the three keys leaves none of them and touches no other. *)
Lemma removed_session_keys (s : State) k :
  localStorage (removeItem "user_data" (removeItem "tokenExpiry" (removeItem "auth_token" s)))
    !! k
  = if decide (k ∈ session_keys) then None else localStorage s !! k.
Proof.
  simpl. case_decide as Hk.
  - unfold session_keys in Hk.
    apply elem_of_cons in Hk as [->|Hk]; [by simplify_map_eq|].
    apply elem_of_cons in Hk as [->|Hk]; [by simplify_map_eq|].
    apply elem_of_cons in Hk as [->|Hk]; [by simplify_map_eq|].
    by apply elem_of_nil in Hk.
  - apply not_session_key in Hk as (H1 & H2 & H3).
    by rewrite !lookup_delete_ne.
Qed.

(** C2.  The store at the failing input: a token and a cached snapshot are
    stored and the backend answers the current-user lookup with HTTP 404
    and the body [{"detail":"Not Found"}].  The error built by [request] has
    no [status] and its text is ["Not Found"], so [checkAuth] does not take
    the 404 branch: the three keys are removed and no user is restored. *)
Theorem checkAuth_404_not_recognised :
  let s := mount Samples.signed_in in
  let s' := checkAuth Samples.base Samples.stringify Samples.parse
              (fun _ => Responded Samples.not_found) s in
  resp_status Samples.not_found = 404
  /\ localStorage s !! "auth_token" = Some "tok-1"
  /\ (exists cached, localStorage s !! "user_data" = Some cached
                     /\ Samples.parse cached = Resolved (Some Samples.alice))
  /\ settled (getMe Samples.base (localStorage s) (fun _ => Responded Samples.not_found))
     = Rejected {| name := "Error"; message := "Not Found"; status := None |}
  /\ user s' = None
  /\ localStorage s' !! "auth_token" = None
  /\ localStorage s' !! "tokenExpiry" = None
  /\ localStorage s' !! "user_data" = None.
Proof.
  cbv zeta. repeat split; try (vm_compute; reflexivity).
  exists (Samples.stringify Samples.alice). split; vm_compute; reflexivity.
Qed.

(** C6.  The store at the failing input: a token and a cached snapshot are
    stored and the lookup fails with HTTP 500 whose text mentions "404".
    [checkAuth] takes the 404 branch on the text alone: the cached user is
    restored and the three keys stay. *)
Theorem checkAuth_500_taken_for_404 :
  let s := mount Samples.signed_in in
  let s' := checkAuth Samples.base Samples.stringify Samples.parse
              (fun _ => Responded Samples.server_error) s in
  resp_status Samples.server_error = 500
  /\ user s' = Some Samples.alice
  /\ localStorage s' !! "auth_token" = Some "tok-1"
  /\ localStorage s' !! "tokenExpiry" = Some "1700003600000"
  /\ localStorage s' !! "user_data" = Some (Samples.stringify Samples.alice).
Proof. cbv zeta. repeat split; vm_compute; reflexivity. Qed.

(** X8.  What [checkAuth] does on a failed lookup is decided by the text of
    the error alone: a text without "404" clears the session whatever the
    status, 404 included. *)
Lemma checkAuth_clears_unless_text_404 base stringify parse fetch storage response k :
  truthy (storage !! "auth_token") = true ->
  fetch (issued (getMe base storage fetch)) = Responded response ->
  ok response = false ->
  includes (message_if_non_empty "Request failed" (json response)) "404" = false ->
  let s' := checkAuth base stringify parse fetch (mount storage) in
  user s' = None
  /\ localStorage s' !! k = (if decide (k ∈ session_keys) then None else storage !! k).
Proof.
  intros Ht Hf Hok Hinc.
  destruct (getMe_rejects_without_status base storage fetch response Hf Hok)
    as (msg & Hs & -> & _).
  cbv zeta.
  rewrite (checkAuth_rejected_other base stringify parse fetch (mount storage) _ Ht Hs).
  - split; [reflexivity|]. apply (removed_session_keys (mount storage) k).
  - unfold looks_like_404. simpl. exact Hinc.
Qed.

(** C4.  When [api.login] resolves, [login] stores the token, the expiry
    ([Date.now()] plus [expires_in] seconds, in milliseconds) and the
    serialized user under [auth_token], [tokenExpiry] and [user_data],
    leaves every other key as it was, makes the response's user the current
    user and navigates to the dashboard.  When [api.login] rejects, the
    storage and the current user are unchanged (an anonymous store stays
    anonymous), nothing is navigated to and the error is thrown on. *)
Theorem login_outcome base stringify email password now fetch (s : State) :
  (forall response,
     settled (Api.login base (localStorage s) email password fetch) = Resolved response ->
     let s' := fst (login base stringify email password now fetch s) in
     user s' = Some (auth_user (data response))
     /\ localStorage s' !! "auth_token" = Some (token (data response))
     /\ localStorage s' !! "tokenExpiry"
        = Some (pretty (now + expires_in (data response) * 1000)%Z)
     /\ localStorage s' !! "user_data" = Some (stringify (auth_user (data response)))
     /\ (forall k, k ∉ session_keys -> localStorage s' !! k = localStorage s !! k)
     /\ dom (localStorage s') = dom (localStorage s) ∪ list_to_set session_keys
     /\ navigated s' = (navigated s ++ ["/dashboard"])%list
     /\ snd (login base stringify email password now fetch s) = Resolved tt)
  /\ (forall error,
     settled (Api.login base (localStorage s) email password fetch) = Rejected error ->
     let s' := fst (login base stringify email password now fetch s) in
     localStorage s' = localStorage s
     /\ user s' = user s
     /\ navigated s' = navigated s
     /\ snd (login base stringify email password now fetch s) = Rejected error).
Proof.
  split.
  - intros response Hs. unfold login. rewrite Hs. cbv zeta. simpl.
    repeat split.
    + by simplify_map_eq.
    + by simplify_map_eq.
    + by simplify_map_eq.
    + intros k Hk. apply not_session_key in Hk as (H1 & H2 & H3).
      by rewrite !lookup_insert_ne.
    + rewrite !dom_insert_L. unfold session_keys. simpl.
      rewrite (right_id_L ∅ (∪)).
      rewrite (comm_L (∪) (dom (localStorage s))).
      by rewrite !(assoc_L (∪)).
  - intros error Hs. unfold login. rewrite Hs. simpl. repeat split.
Qed.

Lemma login_outcome_witness :
  let s' := fst (login Samples.base Samples.stringify "alice@example.com" "secret"
                   1700000000000 (fun _ => Responded Samples.login_ok)
                   (mount {[ "theme" := "dark" ]})) in
  user s' = Some Samples.alice
  /\ localStorage s' !! "auth_token" = Some "tok-2"
  /\ localStorage s' !! "tokenExpiry" = Some "1700003600000".
Proof.
  destruct (login_outcome Samples.base Samples.stringify "alice@example.com" "secret"
              1700000000000 (fun _ => Responded Samples.login_ok)
              (mount {[ "theme" := "dark" ]})) as [Hok _].
  specialize (Hok _ eq_refl). cbv zeta in Hok.
  destruct Hok as (Hu & Ht & He & _).
  split; [exact Hu | split; [exact Ht | exact He]].
Defined.

(** C5.  From any state, [logout] leaves none of the three keys in the
    storage, keeps every other key and the loading flag as they were, sets
    the current user to [null] and navigates to [/login]. *)
Theorem logout_clears_session (s : State) :
  (forall k, k ∈ session_keys -> localStorage (logout s) !! k = None)
  /\ (forall k, k ∉ session_keys -> localStorage (logout s) !! k = localStorage s !! k)
  /\ user (logout s) = None
  /\ navigated (logout s) = (navigated s ++ ["/login"])%list
  /\ loading (logout s) = loading s.
Proof.
  assert (Hl : forall k, localStorage (logout s) !! k
               = if decide (k ∈ session_keys) then None else localStorage s !! k).
  { intros k. apply (removed_session_keys s k). }
  repeat split.
  - intros k Hk. rewrite Hl. by rewrite decide_True.
  - intros k Hk. rewrite Hl. by rewrite decide_False.
Qed.

Lemma logout_clears_session_witness :
  localStorage (logout (mkState Samples.signed_in (Some Samples.alice) false [] []))
    !! "auth_token" = None
  /\ localStorage (logout (mkState Samples.signed_in (Some Samples.alice) false [] []))
       !! "theme" = Some "dark".
Proof.
  destruct (logout_clears_session
              (mkState Samples.signed_in (Some Samples.alice) false [] []))
    as (Hgone & Hkept & _).
  split.
  - apply Hgone. unfold session_keys. repeat constructor.
  - rewrite Hkept.
    + vm_compute. reflexivity.
    + unfold session_keys. intros Hk.
      repeat (apply elem_of_cons in Hk as [Hk|Hk]; [discriminate|]).
      by apply elem_of_nil in Hk.
Defined.

End SessionFacts.

(* ===================================================================== *)
(** ** The expense form *)
(* ===================================================================== *)

Module ExpensesFacts.

Import Api Hooks Expenses.

Lemma string_min_1 msg p s :
  string_min 1 msg p s = if decide (s = "") then [mkIssue p msg] else [].
Proof. destruct s; reflexivity. Qed.


Lemma number_positive_cases msg p x :
  (number_positive msg p x = [] /\ (0 < x)%Q)
  \/ (number_positive msg p x = [mkIssue p msg] /\ (x <= 0)%Q).
Proof.
  unfold number_positive. destruct (Qle_bool x 0) eqn:E.
  - right. split; [reflexivity|]. by apply Qle_bool_iff.
  - left. split; [reflexivity|]. apply Qnot_le_lt. intros H.
    apply Qle_bool_iff in H. congruence.
Qed.

Lemma number_max_cases n msg p x :
  (number_max n msg p x = [] /\ (x <= n)%Q)
  \/ (number_max n msg p x = [mkIssue p msg] /\ (n < x)%Q).
Proof.
  unfold number_max. destruct (Qle_bool x n) eqn:E; simpl.
  - left. split; [reflexivity|]. by apply Qle_bool_iff.
  - right. split; [reflexivity|]. apply Qnot_le_lt. intros H.
    apply Qle_bool_iff in H. congruence.
Qed.


(** A form that passes the schema is submitted: exactly one call goes out. *)
Lemma valid_form_submitted base (storage : gmap string string) formData editing fetch :
  safeParse formData = ParseSuccess ->
  exists op call rest,
    handleSubmit base storage formData editing fetch
    = PreventDefault :: ApiCall op call :: rest.
Proof.
  intros Hp. unfold handleSubmit. rewrite Hp.
  destruct editing; cbv zeta; simpl; eauto.
Qed.

Example lunch_submitted :
  handleSubmit Samples.base Samples.signed_in Samples.lunch None
    (fun _ => Failed (new_Error "offline"))
  = [PreventDefault;
     ApiCall (CreateExpense (mkExpenseCreate "u1" "2024-05-01" 12.5 "Food"
                               (Some "Cafe") (Some "") None None))
       (issued (createExpense Samples.base Samples.signed_in
                  (mkExpenseCreate "u1" "2024-05-01" 12.5 "Food"
                     (Some "Cafe") (Some "") None None)
                  (fun _ => Failed (new_Error "offline"))));
     ShowToast (mkToast "Error" "offline" (Some "destructive"))].
Proof. reflexivity. Qed.

(** X12.  The message shown is that of the first failed check in the order
    of the schema: date, amount, category. *)
Lemma first_issue_shown d :
  expense_date d <> "" ->
  ((amount d <= 0)%Q ->
     exists rest, safeParse d = ParseFailure (mkIssue "amount" "Amount must be positive") rest)
  /\ ((999999 < amount d)%Q ->
     exists rest, safeParse d = ParseFailure (mkIssue "amount" "Amount too large") rest)
  /\ ((0 < amount d)%Q -> (amount d <= 999999)%Q -> category d = "" ->
     exists rest, safeParse d = ParseFailure (mkIssue "category" "Category is required") rest).
Proof.
  intros Hd. unfold safeParse, expenseSchema. rewrite !string_min_1.
  rewrite decide_False by exact Hd.
  destruct (number_positive_cases "Amount must be positive" "amount" (amount d))
    as [[-> Hp]|[-> Hp]];
  destruct (number_max_cases 999999 "Amount too large" "amount" (amount d))
    as [[-> Hm]|[-> Hm]]; simpl.
  all: (split; [|split]);
    [ intros H | intros H | intros H1 H2 H3; rewrite ?H3 ]; simpl; eauto; exfalso; lra.
Qed.




End ExpensesFacts.

(* ===================================================================== *)
(** ** The dashboard aggregates *)
(* ===================================================================== *)

Module DashboardFacts.

Import Api Dashboard.

Lemma sum_app l1 l2 : (sum (l1 ++ l2) == sum l1 + sum l2)%Q.
Proof. induction l1 as [|q l1 IH]; simpl; [lra | rewrite IH; lra]. Qed.

Lemma fold_total acc l :
  (fold_left (fun s exp => s + exp_amount exp) l acc == acc + sum (map exp_amount l))%Q.
Proof.
  revert acc. induction l as [|e l IH]; intros acc; simpl.
  - lra.
  - rewrite IH. lra.
Qed.

Lemma totalExpenses_sum l : (totalExpenses l == sum (map exp_amount l))%Q.
Proof. unfold totalExpenses. rewrite fold_total. lra. Qed.

Lemma avgExpense_cases l :
  (l = [] -> avgExpense l = 0%Q)
  /\ (l <> [] ->
      avgExpense l = (totalExpenses l / inject_Z (Z.of_nat (length l)))%Q).
Proof.
  split.
  - intros ->. reflexivity.
  - intros Hne. destruct l as [|e l]; [congruence|]. reflexivity.
Qed.

Lemma categoryTotals_snoc l e :
  categoryTotals (l ++ [e])
  = write (categoryTotals l) (exp_category e)
      (or_zero_plus (read (categoryTotals l) (exp_category e)) (exp_amount e)).
Proof. unfold categoryTotals. rewrite fold_left_app. reflexivity. Qed.

Lemma category_sum_snoc c l e :
  (category_sum c (l ++ [e])
   == category_sum c l + (if in_category c e then exp_amount e else 0))%Q.
Proof.
  unfold category_sum. rewrite List.filter_app, map_app, sum_app. simpl.
  destruct (in_category c e); simpl; lra.
Qed.

Lemma category_sum_absent c l :
  existsb (in_category c) l = false -> category_sum c l = 0%Q.
Proof.
  unfold category_sum. induction l as [|e l IH]; simpl; [reflexivity|].
  intros H. apply orb_false_iff in H as [He Hl]. rewrite He. auto.
Qed.

Lemma inherited_not_proto k : inherited k = None -> String.eqb k "__proto__" = false.
Proof. unfold inherited. destruct (String.eqb k "__proto__"); [discriminate|reflexivity]. Qed.

(** With amounts added exactly: on expenses whose categories are plain
    names the accumulator holds, for each category that occurs, a number equal to the sum of the
    amounts of that category, and nothing else. *)
Lemma categoryTotals_plain l :
  Forall plain l ->
  forall c,
    if existsb (in_category c) l
    then exists q, categoryTotals l !! c = Some (Num q) /\ (q == category_sum c l)%Q
    else categoryTotals l !! c = None.
Proof.
  induction l as [|e l IH] using rev_ind; intros Hplain c.
  - simpl. apply lookup_empty.
  - apply Forall_app in Hplain as [Hl He]. apply Forall_cons in He as [He _].
    specialize (IH Hl).
    rewrite existsb_app, categoryTotals_snoc. simpl. rewrite orb_false_r.
    unfold write. rewrite (inherited_not_proto _ He).
    change (in_category c e) with (String.eqb (exp_category e) c).
    destruct (String.eqb_spec (exp_category e) c) as [<-|Hne].
    + rewrite orb_true_r, lookup_insert_eq.
      pose proof (category_sum_snoc (exp_category e) l e) as Hsum.
      change (in_category (exp_category e) e)
        with (String.eqb (exp_category e) (exp_category e)) in Hsum.
      rewrite String.eqb_refl in Hsum.
      unfold read. specialize (IH (exp_category e)).
      destruct (existsb (in_category (exp_category e)) l) eqn:Hocc.
      * destruct IH as (q & -> & Hq). simpl.
        destruct (Qeq_bool q 0) eqn:Hz; eexists; (split; [reflexivity|]).
        -- apply Qeq_bool_iff in Hz. lra.
        -- lra.
      * rewrite IH, He. simpl. eexists; split; [reflexivity|].
        rewrite (category_sum_absent _ _ Hocc) in Hsum. lra.
    + rewrite orb_false_r, lookup_insert_ne by exact Hne.
      pose proof (category_sum_snoc c l e) as Hsum.
      change (in_category c e) with (String.eqb (exp_category e) c) in Hsum.
      destruct (String.eqb_spec (exp_category e) c) as [Heq|_]; [congruence|].
      specialize (IH c).
      destruct (existsb (in_category c) l).
      * destruct IH as (q & Hq & Hs). exists q. split; [exact Hq|]. lra.
      * exact IH.
Qed.

(** C9.  The aggregates at the failing input: one expense of 5 filed under
    the category "constructor".  The total, the average and the sum of the
    category are 5, but the accumulator's cell is not a number: the first
    read of [acc["constructor"]] finds the inherited native function, which
    is truthy, and [+] builds a text from it. *)
Theorem categoryTotals_inherited_name :
  let expenses := [Samples.spent "constructor" 5] in
  (totalExpenses expenses == 5)%Q
  /\ (avgExpense expenses == 5)%Q
  /\ (category_sum "constructor" expenses == 5)%Q
  /\ categoryTotals expenses !! "constructor"
     = Some (Text (NativeFunction "constructor") [5%Q])
  /\ forall q, categoryTotals expenses !! "constructor" <> Some (Num q).
Proof.
  cbv zeta. repeat split; try (vm_compute; reflexivity).
  intros q. vm_compute. discriminate.
Qed.

(** A category named [__proto__] gets no cell at all. *)
Lemma categoryTotals_proto :
  categoryTotals [Samples.spent "__proto__" 5] !! "__proto__" = None.
Proof. vm_compute. reflexivity. Qed.

Example categoryTotals_food :
  categoryTotals [Samples.spent "Food" 5; Samples.spent "Fuel" 30; Samples.spent "Food" 7]
    !! "Food" = Some (Num (0 + 5 + 7)).
Proof. vm_compute. reflexivity. Qed.

End DashboardFacts.

(* ===================================================================== *)
(** ** The file manager *)
(* ===================================================================== *)

Module FilesFacts.

Import Api Files.

Lemma append_nil_l s : "" +:+ s = s.
Proof. reflexivity. Qed.

Lemma append_cons c s t : String c s +:+ t = String c (s +:+ t).
Proof. reflexivity. Qed.

Lemma startsWith_app p rest : startsWith (p +:+ rest) p = true.
Proof.
  induction p as [|c p IH]; [by destruct rest|].
  rewrite append_cons. simpl. by rewrite Ascii.eqb_refl, IH.
Qed.

Lemma startsWith_split s p : startsWith s p = true -> exists rest, s = p +:+ rest.
Proof.
  revert s. induction p as [|c p IH]; intros s H.
  - exists s. reflexivity.
  - destruct s as [|d s]; simpl in H; [discriminate|].
    apply andb_true_iff in H as [Hc Hs]. apply Ascii.eqb_eq in Hc as ->.
    destruct (IH s Hs) as [rest ->]. exists rest. reflexivity.
Qed.

Lemma includes_starts s p : startsWith s p = true -> includes s p = true.
Proof. intros H. destruct s; cbn [includes]; rewrite H; reflexivity. Qed.

Lemma includes_app before p after : includes (before +:+ p +:+ after) p = true.
Proof.
  induction before as [|c before IH].
  - rewrite append_nil_l. apply includes_starts, startsWith_app.
  - rewrite append_cons. simpl. rewrite IH. apply orb_true_r.
Qed.

Lemma includes_split s p :
  includes s p = true -> exists before after, s = before +:+ p +:+ after.
Proof.
  induction s as [|c s IH]; cbn [includes]; intros H.
  - rewrite orb_false_r in H. apply startsWith_split in H as [rest ->].
    exists "", rest. reflexivity.
  - apply orb_true_iff in H as [H|H].
    + apply startsWith_split in H as [rest ->]. exists "", rest. reflexivity.
    + destruct (IH H) as (before & after & ->).
      exists (String c before), after. reflexivity.
Qed.

Lemma includes_empty s : includes s "" = true.
Proof. destruct s; reflexivity. Qed.

Lemma ascii_lower_app s t : ascii_lower (s +:+ t) = ascii_lower s +:+ ascii_lower t.
Proof.
  induction s as [|c s IH]; [reflexivity|].
  rewrite append_cons. simpl. by rewrite IH.
Qed.

Lemma ascii_lower_split s x y :
  ascii_lower s = x +:+ y ->
  exists s1 s2, s = s1 +:+ s2 /\ ascii_lower s1 = x /\ ascii_lower s2 = y.
Proof.
  revert s. induction x as [|c x IH]; intros s H.
  - exists "", s. auto.
  - rewrite append_cons in H. destruct s as [|d s]; simpl in H; [discriminate|].
    injection H as Hc Hs. destruct (IH s Hs) as (s1 & s2 & -> & H1 & H2).
    exists (String d s1), s2. simpl. rewrite H1, Hc. auto.
Qed.

(** The code point of a lower-cased character. *)
Lemma ascii_lower_char_code c :
  nat_of_ascii (ascii_lower_char c)
  = if (Nat.leb 65 (nat_of_ascii c) && Nat.leb (nat_of_ascii c) 90)%bool
    then (nat_of_ascii c + 32)%nat else nat_of_ascii c.
Proof.
  unfold ascii_lower_char.
  destruct (Nat.leb 65 (nat_of_ascii c) && Nat.leb (nat_of_ascii c) 90)%bool eqn:E;
    [|reflexivity].
  apply andb_true_iff in E as [_ E]. apply Nat.leb_le in E.
  apply nat_ascii_embedding. lia.
Qed.

Lemma ascii_code_inj c d : nat_of_ascii c = nat_of_ascii d -> c = d.
Proof.
  intros H. rewrite <- (ascii_nat_embedding c), <- (ascii_nat_embedding d). by rewrite H.
Qed.

(** Lower-casing identifies exactly the forms of one letter. *)
Lemma ascii_lower_char_same c d :
  ascii_lower_char c = ascii_lower_char d <-> same_letter c d.
Proof.
  unfold same_letter, is_capital. split.
  - intros H. apply (f_equal nat_of_ascii) in H.
    rewrite !ascii_lower_char_code in H.
    destruct (Nat.leb_spec 65 (nat_of_ascii c)), (Nat.leb_spec (nat_of_ascii c) 90),
      (Nat.leb_spec 65 (nat_of_ascii d)), (Nat.leb_spec (nat_of_ascii d) 90);
      simpl in H;
      first [ left; apply ascii_code_inj; lia
            | right; left; split; lia
            | right; right; split; lia ].
  - intros H. apply ascii_code_inj. rewrite !ascii_lower_char_code.
    destruct H as [-> | [[Hc Hd] | [Hd Hc]]]; [reflexivity| |].
    + destruct (Nat.leb_spec 65 (nat_of_ascii c)), (Nat.leb_spec (nat_of_ascii c) 90),
        (Nat.leb_spec 65 (nat_of_ascii d)), (Nat.leb_spec (nat_of_ascii d) 90);
        simpl; lia.
    + destruct (Nat.leb_spec 65 (nat_of_ascii c)), (Nat.leb_spec (nat_of_ascii c) 90),
        (Nat.leb_spec 65 (nat_of_ascii d)), (Nat.leb_spec (nat_of_ascii d) 90);
        simpl; lia.
Qed.

Lemma ascii_lower_same s t : ascii_lower s = ascii_lower t <-> same_letters s t.
Proof.
  split.
  - revert t. induction s as [|c s IH]; intros [|d t] H; simpl in H; try discriminate.
    + constructor.
    + injection H as Hc Hs. constructor; [by apply ascii_lower_char_same | by apply IH].
  - induction 1 as [|c d s t Hcd _ IH]; simpl; [reflexivity|].
    apply ascii_lower_char_same in Hcd. by rewrite Hcd, IH.
Qed.

(** On lower-cased Basic Latin text, [includes] is containment up to case. *)
Lemma includes_ignoring_case name query :
  includes (ascii_lower name) (ascii_lower query) = true
  <-> contains_ignoring_case name query.
Proof.
  split.
  - intros H. apply includes_split in H as (x & y & H).
    apply ascii_lower_split in H as (before & rest & -> & _ & H).
    apply ascii_lower_split in H as (stretch & after & -> & Hs & _).
    exists before, stretch, after. split; [reflexivity|]. by apply ascii_lower_same.
  - intros (before & stretch & after & -> & Hs).
    apply ascii_lower_same in Hs.
    rewrite !ascii_lower_app, Hs. apply includes_app.
Qed.

(** Whatever the lower-casing, [includes] on the lower-cased texts is
    containment of one in the other. *)
Lemma includes_lowered fold name query :
  includes (fold name) (fold query) = true <-> lowered_contains fold name query.
Proof.
  unfold lowered_contains. split.
  - apply includes_split.
  - intros (before & after & ->). apply includes_app.
Qed.

Lemma filteredFiles_empty_query fold files :
  fold "" = "" -> filteredFiles fold files "" = files.
Proof.
  intros Hfold. unfold filteredFiles. rewrite Hfold.
  induction files as [|f files IH]; cbn [List.filter]; [reflexivity|].
  by rewrite includes_empty, IH.
Qed.

Lemma filter_reflects {A} (p : A -> bool) (P : A -> Prop)
    (dec : forall x, Decision (P x)) (l : list A) :
  Forall (fun x => p x = true <-> P x) l -> List.filter p l = filter P l.
Proof.
  induction 1 as [|x l Hx _ IH]; [reflexivity|].
  simpl. rewrite filter_cons, IH.
  destruct (p x) eqn:E; case_decide as HP; try reflexivity; exfalso.
  - apply HP, Hx. reflexivity.
  - apply Hx in HP. discriminate.
Qed.

(** C10 (as amended).  For every lower-casing that does on Basic Latin text
    what [toLowerCase] does there: with the empty query the filter returns
    the list as it is; for every query it returns exactly the files whose
    lower-cased [original_filename] contains the lower-cased query, in
    their original order and with their repetitions; and when the query and
    the file names are Basic Latin text, these are exactly the files whose
    name contains the query up to the case of letters. *)
Theorem filteredFiles_spec toLowerCase files :
  (forall s, is_ascii s = true -> toLowerCase s = ascii_lower s) ->
  filteredFiles toLowerCase files "" = files
  /\ (forall query
        (dec : forall file,
           Decision (lowered_contains toLowerCase (s3_original_filename file) query)),
        filteredFiles toLowerCase files query
        = filter (fun file =>
                    lowered_contains toLowerCase (s3_original_filename file) query)
            files)
  /\ (forall query
        (dec : forall file,
           Decision (contains_ignoring_case (s3_original_filename file) query)),
        is_ascii query = true -> Forall ascii_named files ->
        filteredFiles toLowerCase files query
        = filter (fun file => contains_ignoring_case (s3_original_filename file) query)
            files).
Proof.
  intros Hascii. split; [|split].
  - apply filteredFiles_empty_query. by apply Hascii.
  - intros query dec. apply filter_reflects.
    apply Forall_forall. intros f _. apply includes_lowered.
  - intros query dec Hq Hnames. apply filter_reflects.
    eapply Forall_impl; [exact Hnames|]. intros f Hf. unfold ascii_named in Hf.
    rewrite (Hascii _ Hf), (Hascii _ Hq). apply includes_ignoring_case.
Qed.

Lemma filteredFiles_spec_witness :
  filteredFiles ascii_lower [Samples.stored "Report.PDF"; Samples.stored "notes.txt"] ""
  = [Samples.stored "Report.PDF"; Samples.stored "notes.txt"].
Proof.
  apply (filteredFiles_spec ascii_lower
           [Samples.stored "Report.PDF"; Samples.stored "notes.txt"]).
  reflexivity.
Defined.

(** The sample lower-casing is one the theorem speaks of. *)
Lemma unicode_lower_ascii s :
  is_ascii s = true -> Samples.unicode_lower s = ascii_lower s.
Proof.
  unfold Samples.unicode_lower. generalize false.
  induction s as [|c s IH]; intros after H; [reflexivity|].
  simpl in H. apply andb_true_iff in H as [Hc Hs].
  cbn [Samples.unicode_lower_from ascii_lower]. rewrite Hc. by rewrite IH.
Qed.

(** C10, the claim as it stands fails beyond Basic Latin.  The name
    [ΑΣΑ] contains the query [ΑΣ] letter for letter, yet the file is
    filtered out: the query's sigma is final and lower-cases to U+03C2, the
    name's is not and lower-cases to U+03C3. *)
Lemma filteredFiles_final_sigma :
  includes "ΑΣΑ" "ΑΣ" = true
  /\ contains_ignoring_case "ΑΣΑ" "ΑΣ"
  /\ Samples.unicode_lower "ΑΣΑ" = "ασα"
  /\ Samples.unicode_lower "ΑΣ" = "ας"
  /\ filteredFiles Samples.unicode_lower [Samples.stored "ΑΣΑ"] "ΑΣ" = [].
Proof.
  split; [vm_compute; reflexivity|]. split.
  - exists "", "ΑΣ", "Α". split; [reflexivity|].
    repeat (constructor; [by left|]). constructor.
  - repeat split; vm_compute; reflexivity.
Qed.

Example filteredFiles_pdf :
  filteredFiles ascii_lower
    [Samples.stored "Report.PDF"; Samples.stored "notes.txt"; Samples.stored "scan.pdf"]
    "pdf"
  = [Samples.stored "Report.PDF"; Samples.stored "scan.pdf"].
Proof. vm_compute. reflexivity. Qed.

End FilesFacts.

(* ===================================================================== *)
(** ** The API client: further properties *)
(* ===================================================================== *)

Module ApiMore.

Import Api.

(** X1.  [request] resolves exactly when [fetch] delivered a response whose
    status is in 200-299 and whose body is JSON, and then to that body: a
    network failure, any other status and an unreadable body all reject. *)
Theorem request_resolved_iff {T} base (storage : gmap string string) endpoint options
    (fetch : FetchCall -> FetchResult T) (b : JsonBody T) :
  settled (request base storage endpoint options fetch) = Resolved b
  <-> exists response,
        fetch (issued (request base storage endpoint options fetch)) = Responded response
        /\ ok response = true
        /\ json response = Resolved b.
Proof.
  simpl. destruct (fetch _) as [response|e] eqn:Hf.
  - destruct (ok response) eqn:Hok; simpl.
    + split.
      * intros Hj. exists response. auto.
      * intros (r & Hr & _ & Hj). by injection Hr as ->.
    + split; [discriminate|].
      intros (r & Hr & Hok' & _). injection Hr as ->. congruence.
  - split; [discriminate|]. intros (r & Hr & _). discriminate.
Qed.

(** X2.  Headers the caller passes in [options.headers] win over the ones
    [request] sets: a key the caller gives is sent with the caller's value,
    [Authorization] and [Content-Type] included, and every other key is
    sent as it would be without caller headers. *)
Theorem request_caller_headers_win {T} base (storage : gmap string string) endpoint options
    (fetch : FetchCall -> FetchResult T) (own : gmap string string) k :
  headers options = Some own ->
  fetch_headers (issued (request base storage endpoint options fetch)) !! k
  = match own !! k with
    | Some v => Some v
    | None =>
        fetch_headers
          (issued (request base storage endpoint
                     (mkRequestInit (method options) None (body options)) fetch)) !! k
    end.
Proof.
  intros Hown. simpl. rewrite Hown. simpl.
  rewrite (left_id_L ∅ (∪)).
  rewrite lookup_union.
  destruct (own !! k) as [v|]; simpl.
  - by destruct ((getAuthHeader storage ∪ _) !! k).
  - by destruct ((getAuthHeader storage ∪ _) !! k).
Qed.

Lemma request_caller_headers_win_witness :
  fetch_headers (issued (request (T:=unit) Samples.base Samples.signed_in "/expenses"
                           MoreSamples.impersonating MoreSamples.offline))
    !! "Authorization" = Some "Bearer other".
Proof.
  rewrite (request_caller_headers_win Samples.base Samples.signed_in "/expenses"
             MoreSamples.impersonating MoreSamples.offline
             {[ "Authorization" := "Bearer other" ]} "Authorization" eq_refl).
  reflexivity.
Defined.

(** A proxy that answers an upload with a page that is no JSON: the user
    is told ["Upload failed"]. *)
Example upload_behind_proxy :
  settled (uploadFile Samples.base Samples.signed_in Samples.receipt
             (fun _ => Responded MoreSamples.too_large))
  = Rejected (new_Error "Upload failed").
Proof. reflexivity. Qed.

End ApiMore.

(* ===================================================================== *)
(** ** The session store: further properties *)
(* ===================================================================== *)

Module SessionMore.

Import Api Hooks Session.

Lemma session_key_cases k :
  k ∈ session_keys -> k = "auth_token" \/ k = "tokenExpiry" \/ k = "user_data".
Proof.
  unfold session_keys. intros Hk.
  apply elem_of_cons in Hk as [->|Hk]; [auto|].
  apply elem_of_cons in Hk as [->|Hk]; [auto|].
  apply elem_of_cons in Hk as [->|Hk]; [auto|].
  by apply elem_of_nil in Hk.
Qed.

(** X4.  [signup] persists like [login]: when [api.signup] resolves, the
    token, the expiry and the serialized user are stored under the three
    keys, every other key is kept, the response's user becomes the current
    user and the dashboard is navigated to; when it rejects, storage, user
    and navigation are unchanged, a "Signup failed" toast carries the
    error's message and the error is thrown on. *)
Theorem signup_outcome base stringify email password name now fetch (s : State) :
  (forall response,
     settled (Api.signup base (localStorage s) email password name fetch)
     = Resolved response ->
     let s' := fst (signup base stringify email password name now fetch s) in
     user s' = Some (auth_user (data response))
     /\ localStorage s' !! "auth_token" = Some (token (data response))
     /\ localStorage s' !! "tokenExpiry"
        = Some (pretty (now + expires_in (data response) * 1000)%Z)
     /\ localStorage s' !! "user_data" = Some (stringify (auth_user (data response)))
     /\ (forall k, k ∉ session_keys -> localStorage s' !! k = localStorage s !! k)
     /\ navigated s' = (navigated s ++ ["/dashboard"])%list
     /\ snd (signup base stringify email password name now fetch s) = Resolved tt)
  /\ (forall error,
     settled (Api.signup base (localStorage s) email password name fetch)
     = Rejected error ->
     let s' := fst (signup base stringify email password name now fetch s) in
     localStorage s' = localStorage s
     /\ user s' = user s
     /\ navigated s' = navigated s
     /\ toasts s'
        = (toasts s ++ [mkToast "Signup failed" (message error) (Some "destructive")])%list
     /\ snd (signup base stringify email password name now fetch s) = Rejected error).
Proof.
  split.
  - intros response Hs. unfold signup. rewrite Hs. cbv zeta. simpl.
    repeat split.
    + by simplify_map_eq.
    + by simplify_map_eq.
    + by simplify_map_eq.
    + intros k Hk. apply SessionFacts.not_session_key in Hk as (H1 & H2 & H3).
      by rewrite !lookup_insert_ne.
  - intros error Hs. unfold signup. rewrite Hs. simpl. repeat split.
Qed.

Lemma signup_outcome_witness :
  let s' := fst (signup Samples.base Samples.stringify "alice@example.com" "secret" "Alice"
                   1700000000000 (fun _ => Responded Samples.login_ok)
                   (mount {[ "theme" := "dark" ]})) in
  user s' = Some Samples.alice
  /\ localStorage s' !! "auth_token" = Some "tok-2"
  /\ localStorage s' !! "tokenExpiry" = Some "1700003600000".
Proof.
  destruct (signup_outcome Samples.base Samples.stringify "alice@example.com" "secret"
              "Alice" 1700000000000 (fun _ => Responded Samples.login_ok)
              (mount {[ "theme" := "dark" ]})) as [Hok _].
  specialize (Hok _ eq_refl). cbv zeta in Hok.
  destruct Hok as (Hu & Ht & He & _).
  split; [exact Hu | split; [exact Ht | exact He]].
Defined.

(** X5.  Whatever is stored and whatever the network answers, [checkAuth]
    ends with [loading] off, navigates nowhere, raises no toast and touches
    no key besides the three session keys; and it is all or nothing on the
    token: either the three keys are gone and the user is as before, or the
    token and its expiry are exactly as they were. *)
Theorem checkAuth_invariants base stringify parse fetch (s : State) :
  let s' := checkAuth base stringify parse fetch s in
  loading s' = false
  /\ navigated s' = navigated s
  /\ toasts s' = toasts s
  /\ (forall k, k ∉ session_keys -> localStorage s' !! k = localStorage s !! k)
  /\ (((forall k, k ∈ session_keys -> localStorage s' !! k = None) /\ user s' = user s)
      \/ (localStorage s' !! "auth_token" = localStorage s !! "auth_token"
          /\ localStorage s' !! "tokenExpiry" = localStorage s !! "tokenExpiry")).
Proof.
  assert (Hcleared :
    let c := setLoading false
               (removeItem "user_data" (removeItem "tokenExpiry" (removeItem "auth_token" s))) in
    loading c = false /\ navigated c = navigated s /\ toasts c = toasts s
    /\ (forall k, k ∉ session_keys -> localStorage c !! k = localStorage s !! k)
    /\ (((forall k, k ∈ session_keys -> localStorage c !! k = None) /\ user c = user s)
        \/ (localStorage c !! "auth_token" = localStorage s !! "auth_token"
            /\ localStorage c !! "tokenExpiry" = localStorage s !! "tokenExpiry"))).
  { cbv zeta. repeat split.
    - intros k Hk. change (localStorage (setLoading false ?x)) with (localStorage x).
      rewrite SessionFacts.removed_session_keys. by rewrite decide_False.
    - left. split; [|reflexivity]. intros k Hk.
      change (localStorage (setLoading false ?x)) with (localStorage x).
      rewrite SessionFacts.removed_session_keys. by rewrite decide_True. }
  cbv zeta in *.
  destruct (truthy (localStorage s !! "auth_token")) eqn:Ht.
  2:{ unfold checkAuth. rewrite Ht. simpl. repeat split. right. split; reflexivity. }
  destruct (settled (getMe base (localStorage s) fetch)) as [response|error] eqn:Hs.
  - rewrite (SessionFacts.checkAuth_resolved base stringify parse fetch s response Ht Hs).
    simpl. repeat split.
    + intros k Hk. apply SessionFacts.not_session_key in Hk as (_ & _ & H3).
      by rewrite lookup_insert_ne.
    + right. by rewrite !lookup_insert_ne.
  - destruct (looks_like_404 error) eqn:Hl.
    2:{ rewrite (SessionFacts.checkAuth_rejected_other base stringify parse fetch s error
                   Ht Hs Hl). exact Hcleared. }
    unfold checkAuth. rewrite Ht, Hs, Hl.
    destruct (truthy (localStorage s !! "user_data")).
    + destruct (parse _) as [u|e]; [|exact Hcleared].
      simpl. repeat split. right. split; reflexivity.
    + simpl. repeat split. right. split; reflexivity.
Qed.

(** X6.  With a token stored, a lookup that succeeds makes the looked-up
    user the current user and overwrites the cached snapshot with its
    serialization; the token, its expiry and all other keys are kept. *)
Theorem checkAuth_refreshes_user base stringify parse fetch (s : State) t response :
  localStorage s !! "auth_token" = Some t -> t <> "" ->
  settled (getMe base (localStorage s) fetch) = Resolved response ->
  let s' := checkAuth base stringify parse fetch s in
  user s' = Some (data response)
  /\ localStorage s' !! "user_data" = Some (stringify (data response))
  /\ forall k, k <> "user_data" -> localStorage s' !! k = localStorage s !! k.
Proof.
  intros Ht Hne Hs. cbv zeta.
  rewrite (SessionFacts.checkAuth_resolved base stringify parse fetch s response); [|
    rewrite Ht; destruct t; [congruence | reflexivity] | exact Hs ].
  simpl. repeat split.
  - by rewrite lookup_insert_eq.
  - intros k Hk. by rewrite lookup_insert_ne.
Qed.

Lemma checkAuth_refreshes_user_witness :
  user (checkAuth Samples.base Samples.stringify Samples.parse
          (fun _ => Responded MoreSamples.me_ok) (mount Samples.signed_in))
  = Some (mkUser "u1" "alice@example.com" "Alice B." "admin").
Proof.
  apply (checkAuth_refreshes_user Samples.base Samples.stringify Samples.parse
           (fun _ => Responded MoreSamples.me_ok) (mount Samples.signed_in) "tok-1"
           {| detail := None; body_message := Some "OK";
              data := mkUser "u1" "alice@example.com" "Alice B." "admin" |}).
  - reflexivity.
  - discriminate.
  - reflexivity.
Defined.

(** X7.  The branch [checkAuth] takes when the error text mentions "404":
    a cached snapshot that parses becomes the current user and nothing is
    removed; without a cached snapshot the store keeps its keys and its
    user; a cached snapshot that [JSON.parse] rejects clears the session
    like any other failure. *)
Theorem checkAuth_404_branch base stringify parse fetch (s : State) t error :
  localStorage s !! "auth_token" = Some t -> t <> "" ->
  settled (getMe base (localStorage s) fetch) = Rejected error ->
  includes (message error) "404" = true ->
  let s' := checkAuth base stringify parse fetch s in
  match localStorage s !! "user_data" with
  | None | Some "" => localStorage s' = localStorage s /\ user s' = user s
  | Some cached =>
      match parse cached with
      | Resolved u => localStorage s' = localStorage s /\ user s' = u
      | Rejected _ =>
          (forall k, k ∈ session_keys -> localStorage s' !! k = None) /\ user s' = user s
      end
  end.
Proof.
  intros Ht Hne Hs Hinc. cbv zeta.
  assert (Hl : looks_like_404 error = true).
  { unfold looks_like_404. rewrite Hinc. apply orb_true_r. }
  unfold checkAuth. rewrite Ht, Hs, Hl.
  destruct t as [|c t]; [congruence|].
  destruct (localStorage s !! "user_data") as [[|c' cached]|] eqn:Hc; simpl; auto.
  destruct (parse (String c' cached)) as [u|e]; simpl; auto.
  split; [|reflexivity]. intros k Hk.
  destruct (session_key_cases k Hk) as [-> | [-> | ->]];
    by simplify_map_eq.
Qed.

Lemma checkAuth_404_branch_witness :
  localStorage (checkAuth Samples.base Samples.stringify Samples.parse
                  (fun _ => Responded MoreSamples.not_found_404)
                  (mount MoreSamples.corrupt_cache))
    !! "auth_token" = None.
Proof.
  pose proof (checkAuth_404_branch Samples.base Samples.stringify Samples.parse
                (fun _ => Responded MoreSamples.not_found_404)
                (mount MoreSamples.corrupt_cache) "tok-1"
                (new_Error "404 Not Found") eq_refl) as H.
  destruct H as [Hgone _].
  - discriminate.
  - reflexivity.
  - reflexivity.
  - apply Hgone. unfold session_keys. repeat constructor.
Defined.

Lemma checkAuth_clears_unless_text_404_witness :
  user (checkAuth Samples.base Samples.stringify Samples.parse
          (fun _ => Responded MoreSamples.unauthorized) (mount Samples.signed_in)) = None
  /\ localStorage (checkAuth Samples.base Samples.stringify Samples.parse
                     (fun _ => Responded MoreSamples.unauthorized)
                     (mount Samples.signed_in)) !! "theme"
     = Some "dark".
Proof.
  apply (SessionFacts.checkAuth_clears_unless_text_404 Samples.base Samples.stringify
           Samples.parse (fun _ => Responded MoreSamples.unauthorized) Samples.signed_in
           MoreSamples.unauthorized "theme"); reflexivity.
Defined.

(** X9.  [logout] undoes [login]: whether the login succeeded or failed,
    logging out afterwards leaves none of the three keys, leaves every other
    key as it was before the login and leaves no current user. *)
Theorem logout_after_login base stringify email password now fetch (s : State) k :
  let s1 := fst (login base stringify email password now fetch s) in
  localStorage (logout s1) !! k
  = (if decide (k ∈ session_keys) then None else localStorage s !! k)
  /\ user (logout s1) = None.
Proof.
  cbv zeta. split; [|reflexivity].
  change (localStorage (logout ?x))
    with (localStorage (removeItem "user_data" (removeItem "tokenExpiry"
                          (removeItem "auth_token" x)))).
  rewrite SessionFacts.removed_session_keys.
  case_decide as Hk; [reflexivity|].
  apply SessionFacts.not_session_key in Hk as (H1 & H2 & H3).
  unfold login.
  destruct (settled (Api.login base (localStorage s) email password fetch)); simpl.
  - by rewrite !lookup_insert_ne.
  - reflexivity.
Qed.

(** The header a stored token yields, for every method of the client. *)
Lemma token_header base (storage : gmap string string) op fetch t :
  storage !! "auth_token" = Some t -> t <> "" ->
  fetch_headers (issued (perform base storage op fetch)) !! "Authorization"
  = Some ("Bearer " +:+ t).
Proof.
  intros Ht Hne. destruct t as [|c t]; [congruence|].
  destruct (is_upload op) eqn:Hup.
  - destruct op; try discriminate. simpl. rewrite Ht. simpl.
    apply lookup_singleton_eq.
  - destruct (ApiFacts.perform_via_request base storage op fetch Hup)
      as (endpoint & options & Hh & _ & ->).
    rewrite ApiFacts.request_headers_lookup by exact Hh.
    rewrite ApiFacts.auth_header_lookup, Ht. reflexivity.
Qed.

(** X10.  The store and the client are wired through the storage: after a
    login that resolved with a non-empty token, every method of the client
    called on the resulting storage sends that token as its bearer; after
    [logout], the methods built on [request] send no [Authorization]. *)
Theorem calls_follow_session base stringify email password now fetch (s : State)
    response op fetch' :
  settled (Api.login base (localStorage s) email password fetch) = Resolved response ->
  token (data response) <> "" ->
  let s1 := fst (login base stringify email password now fetch s) in
  fetch_headers (issued (perform base (localStorage s1) op fetch')) !! "Authorization"
  = Some ("Bearer " +:+ token (data response))
  /\ (is_upload op = false ->
      fetch_headers (issued (perform base (localStorage (logout s1)) op fetch'))
        !! "Authorization" = None).
Proof.
  intros Hs Hne. cbv zeta. split.
  - apply token_header; [|exact Hne].
    unfold login. rewrite Hs. simpl. by simplify_map_eq.
  - intros Hup.
    destruct (ApiFacts.perform_via_request base
                (localStorage (logout (fst (login base stringify email password now
                                              fetch s)))) op fetch' Hup)
      as (endpoint & options & Hh & _ & ->).
    rewrite ApiFacts.request_headers_lookup by exact Hh.
    rewrite ApiFacts.auth_header_lookup.
    change (localStorage (logout ?x))
      with (localStorage (removeItem "user_data" (removeItem "tokenExpiry"
                            (removeItem "auth_token" x)))).
    rewrite SessionFacts.removed_session_keys. reflexivity.
Qed.

Lemma calls_follow_session_witness :
  fetch_headers
    (issued (perform Samples.base
               (localStorage
                  (fst (login Samples.base Samples.stringify "alice@example.com" "secret"
                          1700000000000 (fun _ => Responded Samples.login_ok)
                          (mount ∅))))
               (DeleteExpense "e7") MoreSamples.offline))
    !! "Authorization" = Some "Bearer tok-2".
Proof.
  destruct (calls_follow_session Samples.base Samples.stringify "alice@example.com"
              "secret" 1700000000000 (fun _ => Responded Samples.login_ok) (mount ∅)
              {| detail := None; body_message := Some "Login successful";
                 data := {| token := "tok-2"; refresh_token := "ref-2";
                            expires_in := 3600; auth_user := Samples.alice |} |}
              (DeleteExpense "e7") MoreSamples.offline) as [Hsent _].
  - reflexivity.
  - discriminate.
  - exact Hsent.
Defined.

End SessionMore.

(* ===================================================================== *)
(** ** The expenses page: further properties *)
(* ===================================================================== *)

Module ExpensesMore.

Import Api Hooks Expenses Config ExpensesPage.








Lemma first_issue_shown_witness :
  exists rest,
    safeParse Samples.blank_form
    = ParseFailure (mkIssue "amount" "Amount must be positive") rest.
Proof.
  destruct (ExpensesFacts.first_issue_shown Samples.blank_form) as (Hpos & _).
  - discriminate.
  - apply Hpos. simpl. apply Qle_refl.
Defined.

(** X13.  The form the page starts with, and goes back to on [resetForm],
    cannot be submitted: whoever is signed in and whatever is being edited,
    submitting it issues no call and shows "Amount must be positive". *)
Theorem reset_form_not_submittable base (storage : gmap string string) user today
    (s : State) editing fetch :
  today <> "" ->
  handleSubmit base storage (formData (resetForm user today s)) editing fetch
  = [PreventDefault;
     ShowToast (mkToast "Validation Error" "Amount must be positive" (Some "destructive"))].
Proof.
  intros Htoday. unfold handleSubmit.
  destruct (ExpensesFacts.first_issue_shown (formData (resetForm user today s)))
    as (Hpos & _); [exact Htoday|].
  destruct Hpos as [rest ->]; [apply Qle_refl | reflexivity].
Qed.

Lemma reset_form_not_submittable_witness :
  handleSubmit Samples.base Samples.signed_in
    (formData (resetForm (Some Samples.alice) "2024-05-01"
                 (initial (Some Samples.alice) "2024-05-01")))
    None MoreSamples.offline
  = [PreventDefault;
     ShowToast (mkToast "Validation Error" "Amount must be positive" (Some "destructive"))].
Proof.
  apply (reset_form_not_submittable Samples.base Samples.signed_in (Some Samples.alice)
           "2024-05-01" (initial (Some Samples.alice) "2024-05-01") None
           MoreSamples.offline).
  discriminate.
Defined.

(** X14.  A form that passes the schema is routed by the editing state:
    the handler sends [PUT /expenses/{id}] when an expense is being edited
    and [POST /expenses] otherwise; the body is the form with empty [tags]
    and [attachments] left out.  If that call resolves, what follows is the
    "Success" toast, the closing of the dialog, the reset of the form and
    the reload of the list, which fetches again.  If it is rejected, the
    only further effect is an "Error" toast with the error's message: the
    dialog is not closed, the form is not reset and nothing is reloaded. *)
Theorem valid_form_routed base (storage : gmap string string) formData editing fetch :
  safeParse formData = ParseSuccess ->
  exists sent (exchange : Exchange Expense) rest,
    handleSubmit base storage formData editing fetch
    = PreventDefault
      :: ApiCall (match editing with
                  | Some e => UpdateExpense (exp_id e) sent
                  | None => CreateExpense sent
                  end) (issued exchange)
      :: rest
    /\ exchange = match editing with
                  | Some e => updateExpense base storage (exp_id e) sent fetch
                  | None => createExpense base storage sent fetch
                  end
    /\ url (issued exchange)
       = base +:+ match editing with
                  | Some e => "/expenses/" +:+ exp_id e
                  | None => "/expenses"
                  end
    /\ fetch_method (issued exchange)
       = Some (match editing with Some _ => "PUT" | None => "POST" end)
    /\ fetch_body (issued exchange) = JsonString (ExpensePayload sent)
    /\ sent = mkExpenseCreate (user_id formData) (expense_date formData) (amount formData)
                (category formData) (merchant formData) (note formData)
                (non_empty (tags formData)) (non_empty (attachments formData))
    /\ rest = match settled exchange with
              | Resolved _ =>
                  [ShowToast
                     (mkToast "Success"
                        (match editing with
                         | Some _ => "Expense updated successfully"
                         | None => "Expense created successfully"
                         end) None);
                   SetDialogOpen false; ResetForm; LoadExpenses]
              | Rejected error =>
                  [ShowToast (mkToast "Error" (message error) (Some "destructive"))]
              end.
Proof.
  intros Hp. unfold handleSubmit. rewrite Hp.
  destruct editing as [e|]; cbv zeta.
  - eexists _, (updateExpense base storage (exp_id e) _ fetch), _.
    split; [reflexivity|]. repeat split.
  - eexists _, (createExpense base storage _ fetch), _.
    split; [reflexivity|]. repeat split.
Qed.

Lemma valid_form_routed_witness :
  exists sent (exchange : Exchange Expense) rest,
    handleSubmit Samples.base Samples.signed_in Samples.lunch (Some MoreSamples.groceries)
      MoreSamples.offline
    = PreventDefault :: ApiCall (UpdateExpense "e7" sent) (issued exchange) :: rest
    /\ url (issued exchange) = Samples.base +:+ "/expenses/" +:+ "e7"
    /\ fetch_method (issued exchange) = Some "PUT"
    /\ rest = [ShowToast (mkToast "Error" "Failed to fetch" (Some "destructive"))].
Proof.
  destruct (valid_form_routed Samples.base Samples.signed_in Samples.lunch
              (Some MoreSamples.groceries) MoreSamples.offline eq_refl)
    as (sent & exchange & rest & H1 & H2 & H3 & H4 & _ & _ & H7).
  exists sent, exchange, rest.
  split; [exact H1 | split; [exact H3 | split; [exact H4|]]].
  rewrite H7, H2. simpl. reflexivity.
Defined.

(** [filter] with the position test of [removeAttachment]. *)
Lemma filter_positions_past {A} (l : list A) index from :
  (index < from)%nat ->
  filter_positions (fun i => negb (Nat.eqb i index)) from l = l.
Proof.
  revert from. induction l as [|x l IH]; intros from Hlt; simpl; [reflexivity|].
  destruct (Nat.eqb_spec from index) as [Heq|_]; [lia|]. simpl. f_equal.
  apply IH. lia.
Qed.

Lemma filter_positions_remove {A} (l : list A) index from :
  filter_positions (fun i => negb (Nat.eqb i (from + index))) from l
  = (take index l ++ drop (S index) l)%list.
Proof.
  revert index from. induction l as [|x l IH]; intros index from.
  - by destruct index.
  - destruct index as [|index]; simpl.
    + rewrite Nat.add_0_r, Nat.eqb_refl. simpl. rewrite drop_0.
      apply filter_positions_past. lia.
    + destruct (Nat.eqb_spec from (from + S index)) as [Heq|_]; [lia|]. simpl. f_equal.
      replace (from + S index)%nat with (S from + index)%nat by lia. apply IH.
Qed.

Lemma removed_attachments index (s : State) :
  attachments (formData (removeAttachment index s))
  = (fun l => take index l ++ drop (S index) l)%list <$> attachments (formData s).
Proof.
  simpl. destruct (attachments (formData s)) as [l|]; simpl; [|reflexivity].
  f_equal. apply (filter_positions_remove l index 0).
Qed.

(** X15.  [removeAttachment] takes out the attachment at the given position
    and nothing else: the ones before and after keep their order, a
    position past the end changes nothing, a form without an attachment
    list stays without one, and putting the old list back gives the old
    form. *)
Theorem removeAttachment_spec index (s : State) :
  attachments (formData (removeAttachment index s))
  = (fun l => take index l ++ drop (S index) l)%list <$> attachments (formData s)
  /\ (forall l, attachments (formData s) = Some l -> (length l <= index)%nat ->
        attachments (formData (removeAttachment index s)) = Some l)
  /\ with_attachments (attachments (formData s)) (formData (removeAttachment index s))
     = formData s.
Proof.
  split; [apply removed_attachments|]. split.
  - intros l Hl Hlen. rewrite removed_attachments, Hl. simpl.
    by rewrite take_ge, drop_ge, app_nil_r by lia.
  - simpl. by destruct (formData s).
Qed.

Lemma removeAttachment_spec_witness :
  attachments
    (formData (removeAttachment 3
                 (setFormData MoreSamples.with_one_attachment
                    (initial (Some Samples.alice) "2024-05-01"))))
  = Some [MoreSamples.paperclip].
Proof.
  destruct (removeAttachment_spec 3
              (setFormData MoreSamples.with_one_attachment
                 (initial (Some Samples.alice) "2024-05-01"))) as (_ & Hpast & _).
  apply Hpast; [reflexivity | simpl; lia].
Defined.

(** X16.  Choosing no file does nothing.  Choosing a file whose upload
    resolves appends one attachment, named by the server's
    [original_filename] and addressed by [file_url] of the returned key, to
    the end of the form's list; a failed upload leaves the form as it was
    and shows the error's message.  In both cases the upload control is
    released and no file stays selected. *)
Theorem handleFileSelect_outcome env (storage : gmap string string) file fetch
    (s : State) :
  handleFileSelect env storage None fetch s = s
  /\ let s' := handleFileSelect env storage (Some file) fetch s in
     uploadingFile s' = false
     /\ selectedFile s' = None
     /\ expenses s' = expenses s
     /\ match settled (uploadFile (api_base_url env) storage file fetch) with
        | Resolved response =>
            formData s'
            = with_attachments
                (Some (default [] (attachments (formData s))
                       ++ [mkAttachment (original_filename (data response))
                             (file_url env (file_key (data response)))])%list)
                (formData s)
        | Rejected error =>
            formData s' = formData s
            /\ toasts s'
               = (toasts s
                  ++ [mkToast "Upload failed" (message error) (Some "destructive")])%list
        end.
Proof.
  split; [reflexivity|]. cbv zeta. unfold handleFileSelect.
  destruct (settled (uploadFile (api_base_url env) storage file fetch));
    simpl; repeat split.
Qed.

(** X17.  Removing the attachment an upload has just appended gives back
    the list of attachments the form had before (an empty list if it had
    none). *)
Theorem remove_undoes_upload env (storage : gmap string string) file fetch (s : State)
    response :
  settled (uploadFile (api_base_url env) storage file fetch) = Resolved response ->
  attachments
    (formData
       (removeAttachment (length (default [] (attachments (formData s))))
          (handleFileSelect env storage (Some file) fetch s)))
  = Some (default [] (attachments (formData s))).
Proof.
  intros Hs. rewrite removed_attachments.
  unfold handleFileSelect. rewrite Hs. simpl. f_equal.
  rewrite take_app_length. rewrite drop_app_ge by lia.
  replace (S _ - _)%nat with 1%nat by lia. simpl. apply app_nil_r.
Qed.

Lemma remove_undoes_upload_witness :
  attachments
    (formData
       (removeAttachment 1
          (handleFileSelect None Samples.signed_in (Some Samples.receipt)
             (fun _ => Responded MoreSamples.uploaded)
             (setFormData MoreSamples.with_one_attachment
                (initial (Some Samples.alice) "2024-05-01")))))
  = Some [MoreSamples.paperclip].
Proof.
  apply (remove_undoes_upload None Samples.signed_in Samples.receipt
           (fun _ => Responded MoreSamples.uploaded)
           (setFormData MoreSamples.with_one_attachment
              (initial (Some Samples.alice) "2024-05-01"))
           {| detail := None; body_message := Some "Uploaded";
              data := {| file_key := "uploads/42-receipt.pdf";
                         original_filename := "receipt.pdf";
                         size_bytes := 4; uploaded_at := "2024-05-01T10:00:00Z" |} |}).
  reflexivity.
Defined.

Lemma non_empty_default {A} (l : option (list A)) :
  non_empty (Some (default [] l)) = non_empty l.
Proof. by destruct l as [[|x r]|]. Qed.

(** X18.  Opening an expense with [handleEdit] and saving it unchanged, if
    the form passes the schema, sends one [PUT /expenses/{id}] for that
    expense with its date, amount and category; a missing merchant or note
    is sent as the empty string, and missing or empty tags and attachments
    are left out. *)
Theorem edit_then_save base (storage : gmap string string) user expense (s : State) fetch :
  let s' := handleEdit user expense s in
  safeParse (formData s') = ParseSuccess ->
  dialogOpen s' = true
  /\ exists call rest,
       handleSubmit base storage (formData s') (editingExpense s') fetch
       = PreventDefault
         :: ApiCall (UpdateExpense (exp_id expense)
                       (mkExpenseCreate (or_default (id <$> user) "") (exp_date expense)
                          (exp_amount expense) (exp_category expense)
                          (Some (or_default (exp_merchant expense) ""))
                          (Some (or_default (exp_note expense) ""))
                          (non_empty (exp_tags expense))
                          (non_empty (exp_attachments expense)))) call
         :: rest
       /\ url call = base +:+ "/expenses/" +:+ exp_id expense
       /\ fetch_method call = Some "PUT".
Proof.
  cbv zeta. intros Hp. split; [reflexivity|].
  unfold handleSubmit. rewrite Hp.
  change (editingExpense (handleEdit user expense s)) with (Some expense).
  cbv zeta.
  rewrite <- (non_empty_default (exp_tags expense)),
    <- (non_empty_default (exp_attachments expense)).
  eexists _, _. split; [reflexivity|]. split; reflexivity.
Qed.

Lemma edit_then_save_witness :
  exists call rest,
    handleSubmit Samples.base Samples.signed_in
      (formData (handleEdit (Some Samples.alice) MoreSamples.groceries
                   (initial (Some Samples.alice) "2024-05-01")))
      (editingExpense (handleEdit (Some Samples.alice) MoreSamples.groceries
                         (initial (Some Samples.alice) "2024-05-01")))
      MoreSamples.offline
    = PreventDefault
      :: ApiCall (UpdateExpense "e7"
                    (mkExpenseCreate "u1" "2024-05-02" 40 "Food" (Some "") (Some "")
                       None None)) call
      :: rest
    /\ url call = Samples.base +:+ "/expenses/" +:+ "e7"
    /\ fetch_method call = Some "PUT".
Proof.
  destruct (edit_then_save Samples.base Samples.signed_in (Some Samples.alice)
              MoreSamples.groceries (initial (Some Samples.alice) "2024-05-01")
              MoreSamples.offline eq_refl) as [_ H].
  exact H.
Defined.

(** X19.  [handleDelete] does nothing at all when the confirmation is
    declined.  When it is confirmed, exactly one [DELETE /expenses/{id}]
    without a body goes out; if that is rejected the toast reads "Failed to
    delete expense" whatever the error says, and the list is not reloaded. *)
Theorem handleDelete_spec env (storage : gmap string string) id fetch :
  handleDelete env storage id false fetch = []
  /\ exists call rest,
       handleDelete env storage id true fetch
       = ApiCall (DeleteExpense id) call :: rest
       /\ url call = api_base_url env +:+ "/expenses/" +:+ id
       /\ fetch_method call = Some "DELETE"
       /\ fetch_body call = NoBody
       /\ match settled (deleteExpense (api_base_url env) storage id fetch) with
          | Resolved _ =>
              rest = [ShowToast (mkToast "Success" "Expense deleted successfully" None);
                      LoadExpenses]
          | Rejected _ =>
              rest = [ShowToast (mkToast "Error" "Failed to delete expense"
                                   (Some "destructive"))]
          end.
Proof.
  split; [reflexivity|]. unfold handleDelete. cbv zeta.
  eexists _, _. split; [reflexivity|]. repeat split.
  destruct (settled (deleteExpense (api_base_url env) storage id fetch)); reflexivity.
Qed.

(** X20.  A reload that fails treats the list differently on the two pages:
    the expenses page drops the list it had (and says so only in a
    production build), the dashboard keeps it; both stop showing the
    spinner. *)
Theorem failed_reload env prod (storage : gmap string string) fetch error
    (s : State) (d : Loaders.DashboardState) :
  settled (getExpenses (api_base_url env) storage None fetch) = Rejected error ->
  settled (getExpenses (api_base_url env) storage (Some (Loaders.days d)) fetch)
  = Rejected error ->
  let s' := loadExpenses env prod storage fetch s in
  let d' := Loaders.dashboard_loadExpenses env storage fetch d in
  expenses s' = [] /\ loading s' = false
  /\ toasts s'
     = (if prod
        then toasts s ++ [mkToast "Error" "Failed to load expenses" (Some "destructive")]
        else toasts s)%list
  /\ Loaders.dash_expenses d' = Loaders.dash_expenses d
  /\ Loaders.dash_loading d' = false.
Proof.
  intros Hs Hd. cbv zeta. unfold loadExpenses, Loaders.dashboard_loadExpenses.
  rewrite Hs, Hd. destruct prod; repeat split.
Qed.

Lemma failed_reload_witness :
  expenses (loadExpenses None true Samples.signed_in MoreSamples.offline
              (setExpenses [MoreSamples.groceries]
                 (initial (Some Samples.alice) "2024-05-01"))) = []
  /\ Loaders.dash_expenses
       (Loaders.dashboard_loadExpenses None Samples.signed_in MoreSamples.offline
          (Loaders.mkDashboardState [MoreSamples.groceries] true 30))
     = [MoreSamples.groceries].
Proof.
  destruct (failed_reload None true Samples.signed_in MoreSamples.offline
              {| name := "TypeError"; message := "Failed to fetch"; status := None |}
              (setExpenses [MoreSamples.groceries]
                 (initial (Some Samples.alice) "2024-05-01"))
              (Loaders.mkDashboardState [MoreSamples.groceries] true 30)
              eq_refl eq_refl) as (H1 & _ & _ & H2 & _).
  split; [exact H1 | exact H2].
Defined.

End ExpensesMore.

(* ===================================================================== *)
(** ** The dashboard aggregates: further properties *)
(* ===================================================================== *)

Module DashboardMore.

Import Api Dashboard Charts.

Lemma write_other acc k v c : c <> k -> write acc k v !! c = acc !! c.
Proof.
  intros Hne. unfold write. destruct (String.eqb k "__proto__"); [reflexivity|].
  by rewrite lookup_insert_ne.
Qed.

Lemma in_category_iff c e : in_category c e = true <-> exp_category e = c.
Proof. unfold in_category. apply String.eqb_eq. Qed.

Lemma category_amounts_snoc c l e :
  category_amounts c (l ++ [e])
  = (category_amounts c l ++ if in_category c e then [exp_amount e] else [])%list.
Proof.
  unfold category_amounts. rewrite List.filter_app, map_app. simpl.
  by destruct (in_category c e).
Qed.

Lemma category_amounts_absent c l :
  existsb (in_category c) l = false -> category_amounts c l = [].
Proof.
  unfold category_amounts. induction l as [|e l IH]; simpl; [reflexivity|].
  intros H. apply orb_false_iff in H as [He Hl]. rewrite He. auto.
Qed.

Lemma prototype_function_inherited c :
  In c prototype_functions ->
  inherited c = Some (NativeFunction c) /\ String.eqb c "__proto__" = false.
Proof.
  unfold prototype_functions. simpl.
  intros H. repeat (destruct H as [<-|H]; [split; reflexivity|]). destruct H.
Qed.

(** X23.  A category named like a member every object inherits never gets
    a numeric cell.  Under the name of an inherited function the cell, once
    the category occurs, is the text of that function followed by the
    category's amounts in the order of the list; under [__proto__] there is
    never a cell. *)
Theorem inherited_categories_never_numeric l c :
  In c prototype_functions ->
  categoryTotals l !! c
  = (if existsb (in_category c) l
     then Some (Text (NativeFunction c) (category_amounts c l))
     else None)
  /\ categoryTotals l !! "__proto__" = None.
Proof.
  intros Hc. destruct (prototype_function_inherited c Hc) as [Hinh Hnp].
  split.
  - induction l as [|e l IH] using rev_ind; [apply lookup_empty|].
    rewrite DashboardFacts.categoryTotals_snoc, existsb_app, category_amounts_snoc.
    simpl. rewrite orb_false_r.
    destruct (in_category c e) eqn:Hin.
    + apply in_category_iff in Hin. rewrite Hin, orb_true_r.
      unfold write. rewrite Hnp, lookup_insert_eq. unfold read. rewrite IH.
      destruct (existsb (in_category c) l) eqn:Hocc; simpl; [reflexivity|].
      by rewrite Hinh, (category_amounts_absent c l Hocc).
    + rewrite orb_false_r, app_nil_r. rewrite write_other; [exact IH|].
      intros ->. unfold in_category in Hin. by rewrite String.eqb_refl in Hin.
  - induction l as [|e l IH] using rev_ind; [apply lookup_empty|].
    rewrite DashboardFacts.categoryTotals_snoc. unfold write.
    destruct (String.eqb_spec (exp_category e) "__proto__") as [Heq|Hne]; [exact IH|].
    by rewrite lookup_insert_ne.
Qed.

Lemma inherited_categories_never_numeric_witness :
  categoryTotals [Samples.spent "toString" 5; Samples.spent "Food" 30;
                  Samples.spent "toString" 7] !! "toString"
  = Some (Text (NativeFunction "toString") [5%Q; 7%Q]).
Proof.
  apply (inherited_categories_never_numeric
           [Samples.spent "toString" 5; Samples.spent "Food" 30;
            Samples.spent "toString" 7] "toString").
  unfold prototype_functions. simpl. tauto.
Defined.

End DashboardMore.

(* ===================================================================== *)
(** ** The files page: further properties *)
(* ===================================================================== *)

Module FilesMore.

Import Api Hooks Config Files FilesPage.

Lemma append_assoc (a b c : string) : (a +:+ b) +:+ c = a +:+ (b +:+ c).
Proof.
  induction a as [|x a IH]; [reflexivity|].
  rewrite !FilesFacts.append_cons. by rewrite IH.
Qed.

Lemma includes_trans s p q :
  includes s p = true -> includes p q = true -> includes s q = true.
Proof.
  intros Hsp Hpq.
  apply FilesFacts.includes_split in Hsp as (a & b & ->).
  apply FilesFacts.includes_split in Hpq as (c & d & ->).
  rewrite !append_assoc, <- (append_assoc a c).
  apply FilesFacts.includes_app.
Qed.

Lemma filter_filter_implied {A} (p q : A -> bool) (l : list A) :
  (forall x, p x = true -> q x = true) ->
  List.filter p (List.filter q l) = List.filter p l.
Proof.
  intros Himp. induction l as [|x l IH]; simpl; [reflexivity|].
  destruct (q x) eqn:Hq; simpl.
  - by rewrite IH.
  - destruct (p x) eqn:Hp; [|exact IH]. apply Himp in Hp. congruence.
Qed.

Lemma filter_sublist {A} (p : A -> bool) (l : list A) : sublist (List.filter p l) l.
Proof.
  induction l as [|x l IH]; simpl; [constructor|].
  destruct (p x); by constructor.
Qed.

(** X26.  Typing more narrows the result, whatever the lower-casing does:
    if the lower-cased new query contains the lower-cased old one, then
    every file the new query selects was already selected by the old one,
    in the same order, and filtering the old result by the new query gives
    the same list as filtering all files. *)
Theorem longer_query_narrows toLowerCase files old new :
  lowered_contains toLowerCase new old ->
  sublist (filteredFiles toLowerCase files new) (filteredFiles toLowerCase files old)
  /\ filteredFiles toLowerCase (filteredFiles toLowerCase files old) new
     = filteredFiles toLowerCase files new.
Proof.
  intros Hc. apply FilesFacts.includes_lowered in Hc.
  assert (Hfilter : filteredFiles toLowerCase (filteredFiles toLowerCase files old) new
                    = filteredFiles toLowerCase files new).
  { unfold filteredFiles. apply filter_filter_implied.
    intros f Hf. exact (includes_trans _ _ _ Hf Hc). }
  split; [|exact Hfilter].
  rewrite <- Hfilter. apply filter_sublist.
Qed.

Lemma longer_query_narrows_witness :
  sublist
    (filteredFiles Samples.unicode_lower
       [Samples.stored "Report.PDF"; Samples.stored "notes.txt";
        Samples.stored "scan.pdf"] "rep")
    (filteredFiles Samples.unicode_lower
       [Samples.stored "Report.PDF"; Samples.stored "notes.txt";
        Samples.stored "scan.pdf"] "RE").
Proof.
  apply (longer_query_narrows Samples.unicode_lower
           [Samples.stored "Report.PDF"; Samples.stored "notes.txt";
            Samples.stored "scan.pdf"] "RE" "rep").
  exists "", "p". reflexivity.
Defined.

(** Typing one more letter need not narrow in that sense: after the final
    sigma of the old query the new one goes on, the sigma is no longer
    final, and a file the old query left out is selected. *)
Example longer_query_widens :
  filteredFiles Samples.unicode_lower [Samples.stored "ΑΣΑ"] "ΑΣ" = []
  /\ filteredFiles Samples.unicode_lower [Samples.stored "ΑΣΑ"] "ΑΣΑ"
     = [Samples.stored "ΑΣΑ"].
Proof. split; vm_compute; reflexivity. Qed.

(** X27.  The empty state tells the truth, whatever the lower-casing does
    to non-empty text: "No files uploaded yet" is shown only when there are
    no files at all, "No files found" only for a non-empty query that no
    lower-cased file name contains in its lower-cased form, and the list is
    shown exactly when some file name does. *)
Theorem empty_heading_truthful toLowerCase (s : State) :
  toLowerCase "" = "" ->
  (emptyHeading toLowerCase s = Some "No files uploaded yet" -> files s = [])
  /\ (emptyHeading toLowerCase s = Some "No files found" ->
      searchQuery s <> ""
      /\ forall f, In f (files s) ->
           ~ lowered_contains toLowerCase (s3_original_filename f) (searchQuery s))
  /\ (emptyHeading toLowerCase s = None <->
      exists f, In f (files s)
                /\ lowered_contains toLowerCase (s3_original_filename f) (searchQuery s)).
Proof.
  intros Hempty. unfold emptyHeading.
  assert (Hnone : filteredFiles toLowerCase (files s) (searchQuery s) = [] ->
            forall f, In f (files s) ->
              ~ lowered_contains toLowerCase (s3_original_filename f) (searchQuery s)).
  { intros Hnil f Hin Hc. apply FilesFacts.includes_lowered in Hc.
    assert (Hf : In f (filteredFiles toLowerCase (files s) (searchQuery s))).
    { unfold filteredFiles. apply filter_In. auto. }
    rewrite Hnil in Hf. destruct Hf. }
  destruct (filteredFiles toLowerCase (files s) (searchQuery s)) as [|f r] eqn:Hf.
  - destruct (searchQuery s) as [|c q] eqn:Hq; simpl.
    + split; [|split].
      * intros _. by rewrite FilesFacts.filteredFiles_empty_query in Hf.
      * discriminate.
      * split; [discriminate|]. intros (f & Hin & Hc). exfalso. by apply (Hnone eq_refl f).
    + split; [discriminate|]. split.
      * intros _. split; [discriminate|]. by apply Hnone.
      * split; [discriminate|]. intros (f & Hin & Hc). exfalso. by apply (Hnone eq_refl f).
  - split; [discriminate|]. split; [discriminate|]. split; [|reflexivity].
    intros _. exists f.
    assert (Hin : In f (filteredFiles toLowerCase (files s) (searchQuery s))).
    { rewrite Hf. by left. }
    unfold filteredFiles in Hin. apply filter_In in Hin as [Hin Hc].
    split; [exact Hin|]. by apply FilesFacts.includes_lowered.
Qed.

Lemma empty_heading_truthful_witness :
  emptyHeading Samples.unicode_lower
    (mkState [Samples.stored "ΑΣΑ"] false false "ΑΣ" "" [])
  = Some "No files found"
  /\ "ΑΣ" <> ""
  /\ ~ lowered_contains Samples.unicode_lower "ΑΣΑ" "ΑΣ".
Proof.
  destruct (empty_heading_truthful Samples.unicode_lower
              (mkState [Samples.stored "ΑΣΑ"] false false "ΑΣ" "" []) eq_refl)
    as (_ & Hfound & _).
  split; [reflexivity|].
  destruct (Hfound eq_refl) as [Hq Hnone].
  split; [exact Hq|]. apply (Hnone (Samples.stored "ΑΣΑ")). by left.
Defined.

(** X28.  [handleFileUpload] does nothing without a file.  With one, the
    upload control is released and the file input is emptied whatever
    happens; the list changes only when the upload and the reload both
    succeed, and then it is the reloaded list; a rejected upload shows the
    error's message. *)
Theorem handleFileUpload_outcome env (storage : gmap string string) file fetch reload
    (s : State) :
  handleFileUpload env storage None fetch reload s = s
  /\ let s' := handleFileUpload env storage (Some file) fetch reload s in
     uploadingFile s' = false
     /\ inputValue s' = ""
     /\ searchQuery s' = searchQuery s
     /\ match settled (uploadFile (api_base_url env) storage file fetch),
              settled (listFiles (api_base_url env) storage reload) with
        | Resolved _, Resolved listed => files s' = Api.files (data listed)
        | Resolved _, Rejected _ =>
            files s' = files s
            /\ toasts s'
               = (toasts s
                  ++ [mkToast "Success" (file_name file +:+ " uploaded successfully") None;
                      mkToast "Error" "Failed to load files" (Some "destructive")])%list
        | Rejected error, _ =>
            files s' = files s
            /\ toasts s'
               = (toasts s
                  ++ [mkToast "Upload failed" (message error) (Some "destructive")])%list
        end.
Proof.
  split; [reflexivity|]. cbv zeta. unfold handleFileUpload, loadFiles.
  destruct (settled (uploadFile (api_base_url env) storage file fetch));
    [destruct (settled (listFiles (api_base_url env) storage reload))|];
    simpl; repeat split.
  by rewrite <- app_assoc.
Qed.

(** X29.  The link stored on an expense for an uploaded file is the link
    the files page opens for the same key.  With [VITE_API_URL] set it lies
    under the base the client calls; with it unset the client calls
    [http://127.0.0.1:8000/api] while the link points at
    [http://127.0.0.1:8000/s3/files/...], outside [/api]. *)
Theorem file_links env (storage : gmap string string) file fetch
    (s : ExpensesPage.State) response (stored : S3File) :
  settled (uploadFile (api_base_url env) storage file fetch) = Resolved response ->
  file_object_key stored = file_key (data response) ->
  (exists before,
     ExpensesPage.attachments_of
       (ExpensesPage.handleFileSelect env storage (Some file) fetch s)
     = (before ++ [mkAttachment (original_filename (data response))
                     (downloadUrl env stored)])%list)
  /\ (forall u, env = Some u -> u <> "" ->
        downloadUrl env stored
        = api_base_url env +:+ "/s3/files/" +:+ file_object_key stored)
  /\ (env = None \/ env = Some "" ->
        api_base_url env = "http://127.0.0.1:8000/api"
        /\ downloadUrl env stored
           = "http://127.0.0.1:8000" +:+ "/s3/files/" +:+ file_object_key stored).
Proof.
  intros Hs Hkey. split; [|split].
  - exists (default [] (attachments (ExpensesPage.formData s))).
    unfold ExpensesPage.attachments_of, ExpensesPage.handleFileSelect.
    rewrite Hs. simpl. unfold downloadUrl. by rewrite Hkey.
  - intros u -> Hu. destruct u; [congruence|]. reflexivity.
  - intros [-> | ->]; split; reflexivity.
Qed.

Lemma file_links_witness :
  api_base_url None = "http://127.0.0.1:8000/api"
  /\ downloadUrl None (Samples.stored "42-receipt.pdf")
     = "http://127.0.0.1:8000" +:+ "/s3/files/"
       +:+ file_object_key (Samples.stored "42-receipt.pdf").
Proof.
  destruct (file_links None Samples.signed_in Samples.receipt
              (fun _ => Responded MoreSamples.uploaded)
              (ExpensesPage.initial (Some Samples.alice) "2024-05-01")
              {| detail := None; body_message := Some "Uploaded";
                 data := {| file_key := "uploads/42-receipt.pdf";
                            original_filename := "receipt.pdf";
                            size_bytes := 4; uploaded_at := "2024-05-01T10:00:00Z" |} |}
              (Samples.stored "42-receipt.pdf") eq_refl eq_refl) as (_ & _ & Hunset).
  apply Hunset. left. reflexivity.
Defined.

End FilesMore.
